(** * strmr: the PTT command-line adapters

    A shallow embedding of [parse_title.py] and [parse_title_batch.py].
    Both scripts read [sys.argv], call [PTT.parse_title], and print JSON
    produced by [json.dumps].  The embedding has four layers:

    - Python data as the scripts and [json] see it ([pystr], [pyval]);
    - the interpreter the script runs under, for what the scripts leave to
      it: the builtin [str] applied to an object [json] does not know, the
      recursion limit the encoder runs into, the traceback printed for an
      exception nobody caught;
    - the part of [json.dumps] the scripts rely on, with the arguments they
      pass ([ensure_ascii] on, default separators, [default=str] or none)
      and the exceptions it raises: on a dict key it does not accept, on an
      int too long to print, on nesting deeper than the recursion limit
      lets it go;
    - the process: both standard streams, the calls made to the parser, and
      how [main] ends (falls off the end, [sys.exit], or an exception that
      reaches the interpreter).

    [PTT] is an external library: [parse_title] is a parameter of the
    development, a function that may keep state of its own between calls and
    either returns a dict or raises an [Exception].

    Python values are finite trees: a container that holds itself, an
    object whose [__str__] raises, an exception that is not an [Exception]
    ([KeyboardInterrupt], [SystemExit] from inside the parser) and a stream
    that cannot be written to are outside the model. *)

From Stdlib Require Import ZArith NArith List String Ascii Bool Lia DecimalString.
From ExtLib Require Import Structures.Monad Structures.MonadExc.
Import ListNotations.
Import MonadNotation.

Open Scope string_scope.
Open Scope monad_scope.

(** ** Text *)

(** A Python [str] is a sequence of code points.  Text written to a stream
    is a Rocq [string]: [json.dumps] runs with [ensure_ascii=True], so what
    the scripts print is ASCII. *)
Definition codepoint := N.
Definition pystr := list codepoint.

(** A str literal of the source, given by its ASCII characters. *)
Definition lit (s : string) : pystr := map N_of_ascii (list_ascii_of_string s).

Definition dquote : ascii := "034"%char.
Definition newline : ascii := "010"%char.

(** [quoted s] is [s] between two double quotes. *)
Definition quoted (s : string) : string := String dquote (s ++ String dquote "").

(** ['{0:04x}'.format(n)] for [n < 0x10000]. *)
Definition hex_digit (d : N) : ascii :=
  if (d <? 10)%N then ascii_of_N (48 + d) else ascii_of_N (87 + d).

Definition hex4 (n : N) : string :=
  String (hex_digit (N.land (N.shiftr n 12) 15))
    (String (hex_digit (N.land (N.shiftr n 8) 15))
       (String (hex_digit (N.land (N.shiftr n 4) 15))
          (String (hex_digit (N.land n 15)) ""))).

(** [json.encoder.py_encode_basestring_ascii], one character: the
    replacement of a match of [ESCAPE_ASCII] (a backslash, a double quote,
    or anything outside the range from space to tilde), or the character
    itself when the pattern does not match it. *)
Definition escape_ascii (c : codepoint) : string :=
  if (c =? 92)%N then "\\"
  else if (c =? 34)%N then String "\" (String dquote "")
  else if (c =? 8)%N then "\b"
  else if (c =? 12)%N then "\f"
  else if (c =? 10)%N then "\n"
  else if (c =? 13)%N then "\r"
  else if (c =? 9)%N then "\t"
  else if (c <? 32)%N then "\u" ++ hex4 c
  else if (c <=? 126)%N then String (ascii_of_N c) ""
  else if (c <? 65536)%N then "\u" ++ hex4 c
  else
    let n := (c - 65536)%N in
    let s1 := N.lor 55296 (N.land (N.shiftr n 10) 1023) in
    let s2 := N.lor 56320 (N.land n 1023) in
    "\u" ++ hex4 s1 ++ "\u" ++ hex4 s2.

Fixpoint escape_all (s : pystr) : string :=
  match s with
  | [] => ""
  | c :: s' => escape_ascii c ++ escape_all s'
  end.

Definition encode_basestring_ascii (s : pystr) : string := quoted (escape_all s).
Arguments encode_basestring_ascii : simpl never.

(** ** Python values *)

Set Warnings "-register-all".

(** The text [float.__repr__] gives for a finite float is taken as given,
    over the alphabet it is written in (digits, point, signs, exponent
    mark); the float arithmetic that produces it is not part of the model. *)
Inductive fchar :=
| F0 | F1 | F2 | F3 | F4 | F5 | F6 | F7 | F8 | F9
| FDot | FMinus | FPlus | FExp.

Inductive pyfloat :=
| FNaN
| FInf
| FNegInf
| FFinite (repr : list fchar).

(** What can be the key of a [dict] entry: the five kinds of key [json]
    accepts, and any other hashable object (a tuple, a frozenset, bytes,
    an enum member...), of which [json] only reads the class name. *)
Inductive pykey :=
| KStr (s : pystr)
| KInt (z : Z)
| KFloat (f : pyfloat)
| KBool (b : bool)
| KNone
| KOther (cls : pystr).

(** A Python value as [json] tells them apart.  [PObj cls id] is an object
    of class [cls] that is none of the others (a date, an enum member, a
    set...); [id] tells it from the other objects of its class.  The
    string form of such an object is not part of the value: [str] computes
    it, in the process that asks for it.  A [dict] keeps its entries in
    insertion order. *)
Inductive pyval :=
| PNone
| PBool (b : bool)
| PInt (z : Z)
| PFloat (f : pyfloat)
| PStr (s : pystr)
| PList (items : list pyval)
| PTuple (items : list pyval)
| PDict (entries : list (pykey * pyval))
| PObj (cls : pystr) (id : N).

(** The entries of a dict. *)
Definition pydict := list (pykey * pyval).

(** An exception instance derived from [Exception]: its class name and
    [str(e)]. *)
Record pyexc := mkExc { exc_class : pystr; exc_str : pystr }.

Definition TypeError (msg : pystr) : pyexc := mkExc (lit "TypeError") msg.
Definition ValueError (msg : pystr) : pyexc := mkExc (lit "ValueError") msg.
Definition IndexError (msg : pystr) : pyexc := mkExc (lit "IndexError") msg.
Definition RecursionError (msg : pystr) : pyexc := mkExc (lit "RecursionError") msg.

Inductive result (A : Type) :=
| Ok (a : A)
| Err (e : pyexc).
Arguments Ok {A} a.
Arguments Err {A} e.

(** [d[k]] for a str key [k], [None] standing for [KeyError].  The keys of
    a dict are distinct, so the first entry under the key is the only one. *)
Fixpoint dict_get (k : pystr) (entries : pydict) : option pyval :=
  match entries with
  | [] => None
  | (KStr k', v) :: rest =>
      if list_eq_dec N.eq_dec k k' then Some v else dict_get k rest
  | _ :: rest => dict_get k rest
  end.

Definition getitem (o : pyval) (k : string) : option pyval :=
  match o with
  | PDict entries => dict_get (lit k) entries
  | _ => None
  end.

(** ** The interpreter *)

(** What a script leaves to the Python process it runs in.

    - [str cls id] is [str(o)] for the object [o] of class [cls] and
      identity [id].  For a set it depends on the hash seed of the process,
      for a class without [__str__] on the address of the object: two
      processes need not agree on it.
    - [nesting]: when [main] calls [json.dumps], the encoder can enter
      [S nesting] containers inside one another before it hits the
      recursion limit (about a thousand with the default limit; one at
      least, for [main] itself runs a few frames above the bottom of the
      stack).
    - [report e]: what the interpreter prints on standard error, after the
      header of the traceback, when [e] is not caught: the frames, then
      the line naming the exception. *)
Record interpreter := mkInterpreter {
  str : pystr -> N -> pystr;
  nesting : nat;
  report : pyexc -> string
}.

Definition recursion_room (py : interpreter) : nat := S (nesting py).

(** [sys.excepthook], as the interpreter calls it on an exception that
    reaches the top level. *)
Definition excepthook (py : interpreter) (e : pyexc) : string :=
  "Traceback (most recent call last):" ++ String newline (report py e).

(** ** json.dumps *)

Definition fchar_ascii (c : fchar) : ascii :=
  match c with
  | F0 => "0" | F1 => "1" | F2 => "2" | F3 => "3" | F4 => "4"
  | F5 => "5" | F6 => "6" | F7 => "7" | F8 => "8" | F9 => "9"
  | FDot => "." | FMinus => "-" | FPlus => "+" | FExp => "e"
  end%char.

(** [floatstr] of [json.encoder], with [allow_nan=True]. *)
Definition floatstr (f : pyfloat) : string :=
  match f with
  | FNaN => "NaN"
  | FInf => "Infinity"
  | FNegInf => "-Infinity"
  | FFinite repr => string_of_list_ascii (map fchar_ascii repr)
  end.

(** [sys.get_int_max_str_digits()], which neither script changes. *)
Definition int_max_str_digits : nat := 4300.

(** The number of decimal digits of an int, its sign left out. *)
Definition digits (z : Z) : nat :=
  match Z.to_int z with
  | Decimal.Pos d | Decimal.Neg d => Decimal.nb_digits d
  end.

(** What [int.__repr__] raises on an int of more digits than the limit. *)
Definition int_too_long : pyexc :=
  ValueError
    (lit "Exceeds the limit (4300 digits) for integer string conversion; use sys.set_int_max_str_digits() to increase the limit").

(** [int.__repr__]: the decimal digits, or [ValueError] for an int of more
    digits than the limit. *)
Definition intstr (z : Z) : result string :=
  if (int_max_str_digits <? digits z)%nat then Err int_too_long
  else Ok (NilZero.string_of_int (Z.to_int z)).

(** The [default] argument of [json.dumps]: absent, or the builtin [str]. *)
Inductive default_hook :=
| default_none
| default_str.

(** What the encoder raises on a dict key of class [cls] that is none of
    the five kinds it accepts. *)
Definition key_rejected (cls : pystr) : pyexc :=
  TypeError (lit "keys must be str, int, float, bool or None, not " ++ cls)%list.

(** The key of a dict entry as the encoder converts it ([skipkeys=False]). *)
Definition key_str (k : pykey) : result pystr :=
  match k with
  | KStr s => Ok s
  | KFloat f => Ok (lit (floatstr f))
  | KBool true => Ok (lit "true")
  | KBool false => Ok (lit "false")
  | KNone => Ok (lit "null")
  | KInt z =>
      match intstr z with
      | Err e => Err e
      | Ok s => Ok (lit s)
      end
  | KOther cls => Err (key_rejected cls)
  end.

(** The chunks of the members of a list or dict, in order; the first
    member that fails to encode ends the encoding with its exception. *)
Definition each {A : Type} (f : A -> result string) : list A -> result (list string) :=
  fix chunks (l : list A) : result (list string) :=
    match l with
    | [] => Ok []
    | x :: l' =>
        match f x with
        | Err e => Err e
        | Ok c =>
            match chunks l' with
            | Err e => Err e
            | Ok cs => Ok (c :: cs)
            end
        end
    end.

(** What the encoder raises when it cannot go one level deeper. *)
Definition too_deep : pyexc :=
  RecursionError (lit "maximum recursion depth exceeded while encoding a JSON object").

(** The encoder ([c_make_encoder] of [json.encoder], chunks joined), with
    [indent=None] and the default separators (comma-space and colon-space).
    [room] is the number of levels it can still enter: a list, a tuple, a
    dict, and the str that [default] returns for an object the encoder
    does not know, each take one.  Without [default] such an object is a
    [TypeError].  In a dict the key of an entry is converted before the
    value of the entry is encoded. *)
Fixpoint iterencode (py : interpreter) (default : default_hook) (room : nat) (o : pyval)
    {struct o} : result string :=
  match o with
  | PStr s => Ok (encode_basestring_ascii s)
  | PNone => Ok "null"
  | PBool true => Ok "true"
  | PBool false => Ok "false"
  | PInt z => intstr z
  | PFloat f => Ok (floatstr f)
  | PList items | PTuple items =>
      match room with
      | O => Err too_deep
      | S room' =>
          match each (iterencode py default room') items with
          | Err e => Err e
          | Ok cs => Ok ("[" ++ String.concat ", " cs ++ "]")
          end
      end
  | PDict entries =>
      match room with
      | O => Err too_deep
      | S room' =>
          match
            each (fun entry : pykey * pyval =>
                    match entry with
                    | (k, v) =>
                        match key_str k with
                        | Err e => Err e
                        | Ok ks =>
                            match iterencode py default room' v with
                            | Err e => Err e
                            | Ok c => Ok (encode_basestring_ascii ks ++ ": " ++ c)
                            end
                        end
                    end) entries
          with
          | Err e => Err e
          | Ok cs => Ok ("{" ++ String.concat ", " cs ++ "}")
          end
      end
  | PObj cls id =>
      match default with
      | default_none =>
          Err (TypeError (lit "Object of type " ++ cls ++ lit " is not JSON serializable")%list)
      | default_str =>
          match room with
          | O => Err too_deep
          | S _ => Ok (encode_basestring_ascii (str py cls id))
          end
      end
  end.

(** [json.dumps(obj, default=default)], called from [main]. *)
Definition dumps (py : interpreter) (obj : pyval) (default : default_hook) : result string :=
  iterencode py default (recursion_room py) obj.
Arguments dumps : simpl never.

(** ** The process *)

Inductive stream :=
| sys_stdout
| sys_stderr.

(** How a piece of Python code ends: normally with a value, with an
    exception derived from [Exception] on its way up, or with the
    [SystemExit] that [sys.exit] raises, which [except Exception] does not
    catch. *)
Inductive completion (A : Type) :=
| Normal (a : A)
| Raised (e : pyexc)
| SystemExit (code : Z).
Arguments Normal {A} a.
Arguments Raised {A} e.
Arguments SystemExit {A} code.

Section Runtime.

(** The state [PTT] keeps between calls (compiled patterns, caches...). *)
Variable PS : Type.

(** What the scripts can change: the two streams, and the parser, of which
    the calls received are recorded next to its state. *)
Record world := mkWorld {
  stdout : string;
  stderr : string;
  calls : list pystr;
  ptt : PS
}.

Definition Py (A : Type) : Type := world -> completion A * world.

#[export] Instance Monad_Py : Monad Py := {|
  ret := fun _ a w => (Normal a, w);
  bind := fun _ _ m k w =>
    match m w with
    | (Normal a, w') => k a w'
    | (Raised e, w') => (Raised e, w')
    | (SystemExit code, w') => (SystemExit code, w')
    end
|}.

(** [raise e], and [try: m  except Exception as e: h e]. *)
#[export] Instance MonadExc_Py : MonadExc pyexc Py := {|
  raise := fun _ e w => (Raised e, w);
  catch := fun _ m h w =>
    match m w with
    | (Raised e, w') => h e w'
    | r => r
    end
|}.

Definition sys_exit {A : Type} (code : Z) : Py A :=
  fun w => (SystemExit code, w).

(** [print(s, file=f)]: the text and a newline go to the stream. *)
Definition print (s : string) (file : stream) : Py unit :=
  fun w =>
    let line := s ++ String newline "" in
    (Normal tt,
     match file with
     | sys_stdout => mkWorld (stdout w ++ line) (stderr w) (calls w) (ptt w)
     | sys_stderr => mkWorld (stdout w) (stderr w ++ line) (calls w) (ptt w)
     end).

Definition json_dumps (py : interpreter) (obj : pyval) (default : default_hook) : Py string :=
  fun w =>
    match dumps py obj default with
    | Ok s => (Normal s, w)
    | Err e => (Raised e, w)
    end.

(** [argv[i]]. *)
Definition argv_item (argv : list pystr) (i : nat) : Py pystr :=
  match nth_error argv i with
  | Some a => ret a
  | None => raise (IndexError (lit "list index out of range"))
  end.

(** A call of the parser [parse_title] of the [PTT] module, which returns
    the dict of the fields it found in the title, or raises. *)
Definition PTT_call (parse_title : pystr -> PS -> result pydict * PS)
    (title : pystr) : Py pyval :=
  fun w =>
    let (r, s') := parse_title title (ptt w) in
    let w' := mkWorld (stdout w) (stderr w) (calls w ++ [title])%list s' in
    match r with
    | Ok entries => (Normal (PDict entries), w')
    | Err e => (Raised e, w')
    end.

End Runtime.

Arguments stdout {PS} w.
Arguments stderr {PS} w.
Arguments calls {PS} w.
Arguments ptt {PS} w.
Arguments mkWorld {PS} stdout stderr calls ptt.
Arguments sys_exit {PS A} code.
Arguments print {PS} s file.
Arguments json_dumps {PS} py obj default.
Arguments argv_item {PS} argv i.
Arguments PTT_call {PS} parse_title title.

(** ** parse_title.py *)

Module ParseTitle.
Section Main.

Variable PS : Type.
Variable parse_title : pystr -> PS -> result pydict * PS.

Definition main (argv : list pystr) (py : interpreter) : Py PS unit :=
  (if (List.length argv <? 2)%nat then
     s <- json_dumps py (PDict [(KStr (lit "error"), PStr (lit "No title provided"))])
            default_none ;;
     print s sys_stderr ;;
     sys_exit 1
   else ret tt) ;;
  title <- argv_item argv 1 ;;
  catch
    (result <- PTT_call parse_title title ;;
     s <- json_dumps py result default_str ;;
     print s sys_stdout)
    (fun e =>
       s <- json_dumps py (PDict [(KStr (lit "error"), PStr (exc_str e))]) default_none ;;
       print s sys_stderr ;;
       sys_exit 1).

End Main.
End ParseTitle.

(** ** parse_title_batch.py *)

Module ParseTitleBatch.
Section Main.

Variable PS : Type.
Variable parse_title : pystr -> PS -> result pydict * PS.

(** The body of [for title in titles], with [results] as it stands when the
    iteration starts and as it stands when it ends. *)
Definition parse_one (title : pystr) (results : list pyval) : Py PS (list pyval) :=
  catch
    (parsed <- PTT_call parse_title title ;;
     ret (results ++ [PDict [(KStr (lit "title"), PStr title);
                             (KStr (lit "parsed"), parsed);
                             (KStr (lit "error"), PNone)]])%list)
    (fun e =>
       ret (results ++ [PDict [(KStr (lit "title"), PStr title);
                               (KStr (lit "parsed"), PNone);
                               (KStr (lit "error"), PStr (exc_str e))]])%list).

Fixpoint for_title_in (titles : list pystr) (results : list pyval) : Py PS (list pyval) :=
  match titles with
  | [] => ret results
  | title :: rest =>
      results' <- parse_one title results ;;
      for_title_in rest results'
  end.

(** The call of [json.dumps] on [results] is the one statement of [main]
    after the loop, outside any [try]. *)
Definition main (argv : list pystr) (py : interpreter) : Py PS unit :=
  (if (List.length argv <? 2)%nat then
     s <- json_dumps py (PDict [(KStr (lit "error"), PStr (lit "No titles provided"))])
            default_none ;;
     print s sys_stderr ;;
     sys_exit 1
   else ret tt) ;;
  let titles := skipn 1 argv in
  results <- for_title_in titles [] ;;
  s <- json_dumps py (PList results) default_str ;;
  print s sys_stdout.

End Main.
End ParseTitleBatch.

(** ** Running a script *)

(** What is seen of a finished process.  [traceback] is the exception the
    interpreter reported, if one reached it. *)
Record process (PS : Type) := mkProcess {
  exit_status : Z;
  out : string;
  err : string;
  traceback : option pyexc;
  parser_calls : list pystr;
  parser_state : PS
}.
Arguments exit_status {PS} p.
Arguments out {PS} p.
Arguments err {PS} p.
Arguments traceback {PS} p.
Arguments parser_calls {PS} p.
Arguments parser_state {PS} p.
Arguments mkProcess {PS} exit_status out err traceback parser_calls parser_state.

(** A process starts with nothing written and no call made; [s0] is the
    state the parser starts in.  An exception that reaches the interpreter
    makes it print the traceback on standard error, after what the script
    wrote there, and end with status 1. *)
Definition run {PS : Type} (script : interpreter -> Py PS unit) (py : interpreter) (s0 : PS)
    : process PS :=
  let (c, w) := script py (mkWorld "" "" [] s0) in
  match c with
  | Normal _ => mkProcess 0 (stdout w) (stderr w) None (calls w) (ptt w)
  | SystemExit code => mkProcess code (stdout w) (stderr w) None (calls w) (ptt w)
  | Raised e =>
      mkProcess 1 (stdout w) (stderr w ++ excepthook py e) (Some e) (calls w) (ptt w)
  end.

(** ** Notions used to state the properties *)

(** Text that stays on its line: characters from space to tilde. *)
Definition printable (a : ascii) : bool :=
  ((32 <=? N_of_ascii a) && (N_of_ascii a <=? 126))%N.

Fixpoint all_printable (s : string) : bool :=
  match s with
  | "" => true
  | String a s' => printable a && all_printable s'
  end.

(** [one_line text]: [text] is one line, that is some characters none of
    which is a newline, and then a newline. *)
Fixpoint one_line (text : string) : bool :=
  match text with
  | "" => false
  | String a rest =>
      match rest with
      | "" => Ascii.eqb a newline
      | _ => negb (Ascii.eqb a newline) && one_line rest
      end
  end.

(** The line [print] writes for [s]. *)
Definition line (s : string) : string := s ++ String newline "".

(** Text made of lines of characters from space to tilde. *)
Fixpoint ascii_lines (text : string) : bool :=
  match text with
  | "" => true
  | String a rest => (printable a || Ascii.eqb a newline) && ascii_lines rest
  end.

(** The text of the error envelope, the JSON object with the one member
    [error]. *)
Definition envelope (msg : pystr) : string :=
  "{" ++ encode_basestring_ascii (lit "error") ++ ": " ++ encode_basestring_ascii msg ++ "}".

(** The text of a record of the batch script, given the text of its
    [parsed] member and the text of its [error] member. *)
Definition record_text (title : pystr) (parsed error : string) : string :=
  "{" ++ encode_basestring_ascii (lit "title") ++ ": " ++ encode_basestring_ascii title
      ++ ", " ++ encode_basestring_ascii (lit "parsed") ++ ": " ++ parsed
      ++ ", " ++ encode_basestring_ascii (lit "error") ++ ": " ++ error ++ "}".

(** An int [int.__repr__] prints. *)
Definition int_fits (z : Z) : bool := (digits z <=? int_max_str_digits)%nat.

(** A key the encoder converts: one of the five kinds it accepts, not an
    int too long to print. *)
Definition key_fits (k : pykey) : bool :=
  match k with
  | KOther _ => false
  | KInt z => int_fits z
  | _ => true
  end.

(** A value the encoder gets through with [default=str] and [room] levels
    to enter: every key of every dict inside it can be converted, every int
    can be printed, and nothing is nested deeper than [room]. *)
Fixpoint fits (room : nat) (o : pyval) {struct o} : bool :=
  match o with
  | PInt z => int_fits z
  | PList items | PTuple items =>
      match room with
      | O => false
      | S room' => forallb (fits room') items
      end
  | PDict entries =>
      match room with
      | O => false
      | S room' =>
          forallb (fun entry : pykey * pyval =>
                     match entry with
                     | (k, v) => key_fits k && fits room' v
                     end) entries
      end
  | PObj _ _ =>
      match room with
      | O => false
      | S _ => true
      end
  | _ => true
  end.

(** The value with every object [json] does not know replaced by its
    string form [str(o)]. *)
Fixpoint stringify (py : interpreter) (o : pyval) : pyval :=
  match o with
  | PList items => PList (map (stringify py) items)
  | PTuple items => PTuple (map (stringify py) items)
  | PDict entries =>
      PDict (map (fun entry : pykey * pyval =>
                    match entry with
                    | (k, v) => (k, stringify py v)
                    end) entries)
  | PObj cls id => PStr (str py cls id)
  | _ => o
  end.

(** The value holds nothing but what [json] encodes by itself. *)
Fixpoint native (o : pyval) : bool :=
  match o with
  | PList items | PTuple items => forallb native items
  | PDict entries =>
      forallb (fun entry : pykey * pyval =>
                 match entry with
                 | (_, v) => native v
                 end) entries
  | PObj _ _ => false
  | _ => true
  end.

(** The objects [json] does not know inside a value, outside dict keys. *)
Fixpoint objects (o : pyval) : list (pystr * N) :=
  match o with
  | PList items | PTuple items => flat_map objects items
  | PDict entries =>
      flat_map (fun entry : pykey * pyval =>
                  match entry with
                  | (_, v) => objects v
                  end) entries
  | PObj cls id => [(cls, id)]
  | _ => []
  end.

(** Two interpreters give the objects inside a value the same string
    forms. *)
Definition same_strings (py py' : interpreter) (o : pyval) : Prop :=
  forall cls id, In (cls, id) (objects o) -> str py cls id = str py' cls id.

(** The interpreter [py] in another process: same build, so same recursion
    limit and same way to report an exception, but [str] answers [f]. *)
Definition with_str (py : interpreter) (f : pystr -> N -> pystr) : interpreter :=
  mkInterpreter f (nesting py) (report py).

Definition is_none (o : pyval) : bool :=
  match o with
  | PNone => true
  | _ => false
  end.

Section Parser.

Variable PS : Type.
Variable parse_title : pystr -> PS -> result pydict * PS.

(** What the parser answers when it is called on the titles one after the
    other from state [s], and the state it is left in. *)
Fixpoint replies (titles : list pystr) (s : PS) : list (result pydict) :=
  match titles with
  | [] => []
  | title :: rest => fst (parse_title title s) :: replies rest (snd (parse_title title s))
  end.

Fixpoint final_state (titles : list pystr) (s : PS) : PS :=
  match titles with
  | [] => s
  | title :: rest => final_state rest (snd (parse_title title s))
  end.

(** The answer of the parser does not depend on the state it is in. *)
Definition deterministic : Prop :=
  exists f : pystr -> result pydict, forall title s, fst (parse_title title s) = f title.

End Parser.

Arguments replies {PS} parse_title titles s.
Arguments final_state {PS} parse_title titles s.
Arguments deterministic {PS} parse_title.

(** The record of the batch script for a title and the answer of the parser. *)
Definition batch_item (title : pystr) (r : result pydict) : pyval :=
  match r with
  | Ok entries =>
      PDict [(KStr (lit "title"), PStr title);
             (KStr (lit "parsed"), PDict entries);
             (KStr (lit "error"), PNone)]
  | Err e =>
      PDict [(KStr (lit "title"), PStr title);
             (KStr (lit "parsed"), PNone);
             (KStr (lit "error"), PStr (exc_str e))]
  end.

Fixpoint batch_items (titles : list pystr) (rs : list (result pydict)) : list pyval :=
  match titles, rs with
  | title :: titles', r :: rs' => batch_item title r :: batch_items titles' rs'
  | _, _ => []
  end.

(** A record reports the answer [r] of the parser for [title]. *)
Definition reports (title : pystr) (r : result pydict) (item : pyval) : Prop :=
  getitem item "title" = Some (PStr title) /\
  match r with
  | Ok entries =>
      getitem item "parsed" = Some (PDict entries) /\ getitem item "error" = Some PNone
  | Err e =>
      getitem item "parsed" = Some PNone /\ getitem item "error" = Some (PStr (exc_str e))
  end.

(** Exactly one of [parsed] and [error] is not [None]. *)
Definition one_non_null (item : pyval) : Prop :=
  exists parsed error,
    getitem item "parsed" = Some parsed /\ getitem item "error" = Some error /\
    (is_none parsed = false /\ is_none error = true \/
     is_none parsed = true /\ is_none error = false).

(** The answer is a failure, or a dict the encoder gets through with [room]
    levels to enter. *)
Definition reply_fits (room : nat) (r : result pydict) : bool :=
  match r with
  | Ok entries => fits room (PDict entries)
  | Err _ => true
  end.

(** What two runs are compared by: status, both streams, and whether the
    interpreter reported an exception. *)
Definition observable {PS : Type} (p : process PS) : Z * string * string * option pyexc :=
  (exit_status p, out p, err p, traceback p).

(** ** Reading a JSON string back *)

(** A code point that is not a high surrogate.  The strs Python makes of
    command-line arguments hold nothing else: bytes that are valid UTF-8
    give scalar values, and a byte that does not decode becomes a low
    surrogate. *)
Definition no_high_surrogate (c : codepoint) : bool :=
  ((c <? 55296) || ((56320 <=? c) && (c <? 1114112)))%N.

Definition unhex (a : ascii) : option N :=
  let n := N_of_ascii a in
  if ((48 <=? n) && (n <=? 57))%N then Some (n - 48)%N
  else if ((97 <=? n) && (n <=? 102))%N then Some (n - 87)%N
  else None.

Definition unhex4 (h3 h2 h1 h0 : ascii) : option N :=
  match unhex h3, unhex h2, unhex h1, unhex h0 with
  | Some x3, Some x2, Some x1, Some x0 => Some (4096 * x3 + 256 * x2 + 16 * x1 + x0)%N
  | _, _, _, _ => None
  end.

(** The character a backslash announces, [u] apart. *)
Definition unescape_simple (e : ascii) : option codepoint :=
  if Ascii.eqb e "\" then Some 92%N
  else if Ascii.eqb e dquote then Some 34%N
  else if Ascii.eqb e "b" then Some 8%N
  else if Ascii.eqb e "f" then Some 12%N
  else if Ascii.eqb e "n" then Some 10%N
  else if Ascii.eqb e "r" then Some 13%N
  else if Ascii.eqb e "t" then Some 9%N
  else None.

(** What a JSON reader makes of the text after an opening double quote: the
    str that ends at the first double quote not behind a backslash, with
    every escape undone and a high surrogate joined to the low one that
    follows it.  [None] when the text is not the body of a JSON string. *)
Fixpoint scanstring (s : string) : option pystr :=
  match s with
  | "" => None
  | String a rest =>
      if Ascii.eqb a dquote then Some []
      else if Ascii.eqb a "\" then
        match rest with
        | "" => None
        | String e rest1 =>
            if Ascii.eqb e "u" then
              match rest1 with
              | String h3 (String h2 (String h1 (String h0 rest2))) =>
                  match unhex4 h3 h2 h1 h0 with
                  | None => None
                  | Some hi =>
                      if ((55296 <=? hi) && (hi <? 56320))%N then
                        match rest2 with
                        | String b (String e' (String l3 (String l2 (String l1 (String l0 rest3))))) =>
                            if Ascii.eqb b "\" && Ascii.eqb e' "u" then
                              match unhex4 l3 l2 l1 l0 with
                              | None => None
                              | Some lo =>
                                  if ((56320 <=? lo) && (lo <? 57344))%N then
                                    option_map
                                      (cons (65536 + (1024 * (hi - 55296) + (lo - 56320)))%N)
                                      (scanstring rest3)
                                  else None
                              end
                            else None
                        | _ => None
                        end
                      else option_map (cons hi) (scanstring rest2)
                  end
              | _ => None
              end
            else
              match unescape_simple e with
              | Some c => option_map (cons c) (scanstring rest1)
              | None => None
              end
        end
      else option_map (cons (N_of_ascii a)) (scanstring rest)
  end.

(** A character that needs no escape: from space to tilde, and neither a
    double quote nor a backslash. *)
Definition plain (a : ascii) : bool :=
  printable a && negb (Ascii.eqb a dquote) && negb (Ascii.eqb a "\").

Fixpoint all_plain (s : string) : bool :=
  match s with
  | "" => true
  | String a s' => plain a && all_plain s'
  end.

(** ** Sample interpreters *)

(** A date prints the same in every process; the set of the two strs [en]
    and [fr] prints in the order its hash seed gives. *)
Definition sample_str (cls : pystr) (id : N) : pystr :=
  if list_eq_dec N.eq_dec cls (lit "date") then lit "1999-03-31"
  else if list_eq_dec N.eq_dec cls (lit "set") then lit "{'en', 'fr'}"
  else (lit "<" ++ cls ++ lit " object>")%list.

Definition other_seed_str (cls : pystr) (id : N) : pystr :=
  if list_eq_dec N.eq_dec cls (lit "set") then lit "{'fr', 'en'}"
  else sample_str cls id.

Definition sample_report (e : pyexc) : string :=
  "  File " ++ quoted "parse_title_batch.py" ++ ", line 36, in main"
    ++ String newline (escape_all (exc_class e) ++ ": " ++ escape_all (exc_str e)
                         ++ String newline "").

Definition cpython : interpreter := mkInterpreter sample_str 993 sample_report.

Definition cpython_other_seed : interpreter := with_str cpython other_seed_str.

(** ** Sample parsers *)

(** Parses every title but [bad], and counts its calls. *)
Definition demo_parser (title : pystr) (n : nat) : result pydict * nat :=
  (if list_eq_dec N.eq_dec title (lit "bad")
   then Err (ValueError (lit "cannot parse"))
   else Ok [(KStr (lit "title"), PStr title);
            (KStr (lit "released"), PObj (lit "date") 0)],
   S n).

(** Parses one release name into three fields and fails on anything else. *)
Definition matrix_parser (title : pystr) (s : unit) : result pydict * unit :=
  (if list_eq_dec N.eq_dec title (lit "The.Matrix.1999.1080p")
   then Ok [(KStr (lit "title"), PStr (lit "The Matrix"));
            (KStr (lit "year"), PInt 1999);
            (KStr (lit "resolution"), PStr (lit "1080p"))]
   else Err (ValueError (lit "unparseable")),
   s).

(** Fails on [bad] and answers every other title with a dict that has a
    tuple among its keys. *)
Definition tuple_key_parser (title : pystr) (s : unit) : result pydict * unit :=
  (if list_eq_dec N.eq_dec title (lit "bad")
   then Err (ValueError (lit "unparseable"))
   else Ok [(KStr (lit "title"), PStr title);
            (KOther (lit "tuple"), PInt 1)],
   s).

(** Answers every title with a dict that holds a set. *)
Definition languages_parser (title : pystr) (s : unit) : result pydict * unit :=
  (Ok [(KStr (lit "languages"), PObj (lit "set") 0)], s).

(** Fails on every title. *)
Definition failing_parser (title : pystr) (s : unit) : result pydict * unit :=
  (Err (ValueError (lit "no")), s).

(** [depth] lists inside one another around [None]. *)
Definition nested (depth : nat) : pyval := Nat.iter depth (fun v => PList [v]) PNone.

(** ** Sample command lines *)

Definition no_arguments : list pystr := [lit "parse_title.py"].

Definition one_title : list pystr := [lit "parse_title.py"; lit "The.Matrix.1999.1080p"].

Definition two_titles : list pystr :=
  [lit "parse_title_batch.py"; lit "The.Matrix.1999.1080p"; lit "bad"].

Definition failure_first : list pystr :=
  [lit "parse_title_batch.py"; lit "bad"; lit "The.Matrix.1999.1080p"].

(** ** Induction on values *)

Section PyvalInd.

Variable P : pyval -> Prop.
Hypothesis HNone : P PNone.
Hypothesis HBool : forall b, P (PBool b).
Hypothesis HInt : forall z, P (PInt z).
Hypothesis HFloat : forall f, P (PFloat f).
Hypothesis HStr : forall s, P (PStr s).
Hypothesis HList : forall items, Forall P items -> P (PList items).
Hypothesis HTuple : forall items, Forall P items -> P (PTuple items).
Hypothesis HDict : forall entries, Forall (fun entry => P (snd entry)) entries -> P (PDict entries).
Hypothesis HObj : forall cls id, P (PObj cls id).

Fixpoint pyval_nested_ind (o : pyval) : P o :=
  match o with
  | PNone => HNone
  | PBool b => HBool b
  | PInt z => HInt z
  | PFloat f => HFloat f
  | PStr s => HStr s
  | PList items =>
      HList items
        ((fix all (l : list pyval) : Forall P l :=
            match l with
            | [] => Forall_nil P
            | x :: l' => Forall_cons x (pyval_nested_ind x) (all l')
            end) items)
  | PTuple items =>
      HTuple items
        ((fix all (l : list pyval) : Forall P l :=
            match l with
            | [] => Forall_nil P
            | x :: l' => Forall_cons x (pyval_nested_ind x) (all l')
            end) items)
  | PDict entries =>
      HDict entries
        ((fix all (l : list (pykey * pyval)) : Forall (fun entry => P (snd entry)) l :=
            match l with
            | [] => Forall_nil _
            | x :: l' => Forall_cons x (pyval_nested_ind (snd x)) (all l')
            end) entries)
  | PObj cls id => HObj cls id
  end.

End PyvalInd.

(** * Proofs *)

(** ** The model at work *)

(** A str with a letter outside ASCII, a newline, a character outside the
    basic plane and a double quote. *)
Example encode_basestring_ascii_escapes :
  encode_basestring_ascii [233; 10; 128512; 34]%N
  = quoted ("\u00e9\n\ud83d\ude00\" ++ String dquote "").
Proof. reflexivity. Qed.

Example dumps_nested :
  dumps cpython
    (PDict [(KStr (lit "seasons"), PList [PInt 1; PInt 2]);
            (KInt 3, PTuple [PNone; PBool true; PFloat (FFinite [F1; FDot; F5])]);
            (KBool false, PObj (lit "date") 0)]) default_str
  = Ok ("{" ++ quoted "seasons" ++ ": [1, 2], " ++ quoted "3" ++ ": [null, true, 1.5], "
          ++ quoted "false" ++ ": " ++ quoted "1999-03-31" ++ "}").
Proof. reflexivity. Qed.

Example dumps_object_without_default :
  dumps cpython (PList [PObj (lit "date") 0]) default_none
  = Err (TypeError (lit "Object of type date is not JSON serializable")).
Proof. reflexivity. Qed.

(** An int of 4300 digits is printed, an int of 4301 digits is not. *)
Example dumps_long_int :
  (exists s, dumps cpython (PDict [(KStr (lit "n"), PInt (10 ^ 4300 - 1))]) default_str = Ok s) /\
  dumps cpython (PDict [(KStr (lit "n"), PInt (10 ^ 4300))]) default_str
  = Err int_too_long.
Proof.
  split.
  - eexists. vm_compute. reflexivity.
  - vm_compute. reflexivity.
Qed.

(** The encoder enters as many lists as the interpreter leaves it room for,
    and not one more. *)
Example dumps_deep_list :
  (exists s, dumps cpython (nested (recursion_room cpython)) default_str = Ok s) /\
  dumps cpython (nested (S (recursion_room cpython))) default_str = Err too_deep.
Proof.
  split.
  - eexists. vm_compute. reflexivity.
  - vm_compute. reflexivity.
Qed.

(** The single-title script on a release name the parser knows. *)
Example single_matrix :
  run (ParseTitle.main unit matrix_parser one_title) cpython tt
  = mkProcess 0
      (line ("{" ++ quoted "title" ++ ": " ++ quoted "The Matrix" ++ ", "
               ++ quoted "year" ++ ": 1999, "
               ++ quoted "resolution" ++ ": " ++ quoted "1080p" ++ "}"))
      "" None [lit "The.Matrix.1999.1080p"] tt.
Proof. reflexivity. Qed.

(** The single-title script on a title the parser rejects. *)
Example single_rejected :
  run (ParseTitle.main unit matrix_parser [lit "parse_title.py"; lit "bad"]) cpython tt
  = mkProcess 1 ""
      (line ("{" ++ quoted "error" ++ ": " ++ quoted "unparseable" ++ "}"))
      None [lit "bad"] tt.
Proof. reflexivity. Qed.

(** The batch script on two titles, the second of which the parser
    rejects. *)
Example batch_matrix_and_rejected :
  run (ParseTitleBatch.main unit matrix_parser two_titles) cpython tt
  = mkProcess 0
      (line ("[{" ++ quoted "title" ++ ": " ++ quoted "The.Matrix.1999.1080p" ++ ", "
               ++ quoted "parsed" ++ ": {"
               ++ quoted "title" ++ ": " ++ quoted "The Matrix" ++ ", "
               ++ quoted "year" ++ ": 1999, "
               ++ quoted "resolution" ++ ": " ++ quoted "1080p" ++ "}, "
               ++ quoted "error" ++ ": null}, {"
               ++ quoted "title" ++ ": " ++ quoted "bad" ++ ", "
               ++ quoted "parsed" ++ ": null, "
               ++ quoted "error" ++ ": " ++ quoted "unparseable" ++ "}]"))
      "" None [lit "The.Matrix.1999.1080p"; lit "bad"] tt.
Proof. reflexivity. Qed.

(** The batch script on a parser result with a tuple among its keys: the
    exception of [json.dumps] reaches the interpreter. *)
Example batch_tuple_key :
  run (ParseTitleBatch.main unit tuple_key_parser one_title) cpython tt
  = mkProcess 1 ""
      ("Traceback (most recent call last):"
         ++ String newline ("  File " ++ quoted "parse_title_batch.py" ++ ", line 36, in main"
         ++ String newline ("TypeError: keys must be str, int, float, bool or None, not tuple"
         ++ String newline "")))
      (Some (TypeError (lit "keys must be str, int, float, bool or None, not tuple")))
      [lit "The.Matrix.1999.1080p"] tt.
Proof. reflexivity. Qed.

(** ** Text stays printable *)

Lemma all_printable_app (s t : string) :
  all_printable (s ++ t) = all_printable s && all_printable t.
Proof.
  induction s as [|a s IH]; simpl.
  - reflexivity.
  - rewrite IH. apply andb_assoc.
Qed.

Lemma printable_ascii_of_N (n : N) :
  (32 <= n <= 126)%N -> printable (ascii_of_N n) = true.
Proof.
  intros H. unfold printable.
  rewrite N_ascii_embedding by lia.
  apply andb_true_iff. split; apply N.leb_le; lia.
Qed.

Lemma printable_hex_digit (d : N) :
  (d < 16)%N -> printable (hex_digit d) = true.
Proof.
  intros H. unfold hex_digit.
  destruct (N.ltb_spec d 10); apply printable_ascii_of_N; lia.
Qed.

Lemma land_15_lt (n : N) : (N.land n 15 < 16)%N.
Proof.
  change 15%N with (N.ones 4). rewrite N.land_ones.
  apply N.mod_lt. discriminate.
Qed.

Lemma all_printable_hex4 (n : N) : all_printable (hex4 n) = true.
Proof.
  unfold hex4. simpl.
  rewrite !printable_hex_digit by apply land_15_lt. reflexivity.
Qed.

Lemma all_printable_escape_ascii (c : codepoint) :
  all_printable (escape_ascii c) = true.
Proof.
  unfold escape_ascii.
  repeat match goal with
         | |- context [N.eqb c ?k] => destruct (N.eqb_spec c k); [reflexivity|]
         end.
  destruct (N.ltb_spec c 32).
  { rewrite all_printable_app, all_printable_hex4. reflexivity. }
  destruct (N.leb_spec c 126).
  { simpl. rewrite printable_ascii_of_N by lia. reflexivity. }
  destruct (N.ltb_spec c 65536).
  { rewrite all_printable_app, all_printable_hex4. reflexivity. }
  cbv zeta.
  rewrite !all_printable_app, !all_printable_hex4. reflexivity.
Qed.

Lemma all_printable_escape_all (s : pystr) : all_printable (escape_all s) = true.
Proof.
  induction s as [|c s IH]; simpl.
  - reflexivity.
  - rewrite all_printable_app, all_printable_escape_ascii, IH. reflexivity.
Qed.

Lemma all_printable_quoted (s : string) :
  all_printable s = true -> all_printable (quoted s) = true.
Proof.
  intros H. unfold quoted. simpl.
  rewrite all_printable_app, H. reflexivity.
Qed.

Lemma all_printable_basestring (s : pystr) :
  all_printable (encode_basestring_ascii s) = true.
Proof.
  apply all_printable_quoted, all_printable_escape_all.
Qed.

Lemma all_printable_uint (d : Decimal.uint) :
  all_printable (NilEmpty.string_of_uint d) = true.
Proof.
  induction d; simpl; auto.
Qed.

Lemma all_printable_intstr (z : Z) (s : string) :
  intstr z = Ok s -> all_printable s = true.
Proof.
  unfold intstr. destruct (int_max_str_digits <? digits z)%nat; [discriminate|].
  intros E. injection E as <-.
  unfold NilZero.string_of_int, NilZero.string_of_uint.
  destruct (Z.to_int z) as [d|d]; destruct d; simpl;
    try reflexivity; apply all_printable_uint.
Qed.

Lemma all_printable_floatstr (f : pyfloat) : all_printable (floatstr f) = true.
Proof.
  destruct f as [| | |repr]; try reflexivity.
  simpl. induction repr as [|c repr IH]; simpl.
  - reflexivity.
  - rewrite IH. destruct c; reflexivity.
Qed.

Lemma all_printable_concat (sep : string) (cs : list string) :
  all_printable sep = true ->
  Forall (fun c => all_printable c = true) cs ->
  all_printable (String.concat sep cs) = true.
Proof.
  intros Hsep H. induction H as [|c cs Hc Hcs IH]; simpl.
  - reflexivity.
  - destruct cs as [|c' cs'].
    + exact Hc.
    + rewrite !all_printable_app, Hc, Hsep. exact IH.
Qed.

Lemma one_line_printable (s : string) :
  all_printable s = true -> one_line (line s) = true.
Proof.
  unfold line. induction s as [|a s IH]; simpl; intros H.
  - reflexivity.
  - apply andb_true_iff in H. destruct H as [Ha Hs].
    specialize (IH Hs).
    destruct (s ++ String newline "") eqn:E.
    + destruct s; discriminate.
    + rewrite IH, andb_true_r.
      unfold printable in Ha. apply andb_true_iff in Ha. destruct Ha as [Ha _].
      apply N.leb_le in Ha.
      destruct (Ascii.eqb_spec a newline) as [->|]; [|reflexivity].
      simpl in Ha. lia.
Qed.

Lemma ascii_lines_line (s : string) :
  all_printable s = true -> ascii_lines (line s) = true.
Proof.
  unfold line. induction s as [|a s IH]; simpl; intros H.
  - reflexivity.
  - apply andb_true_iff in H. destruct H as [Ha Hs].
    rewrite Ha, (IH Hs). reflexivity.
Qed.

Lemma append_assoc (s t u : string) : (s ++ t) ++ u = s ++ t ++ u.
Proof.
  induction s as [|a s IH]; simpl.
  - reflexivity.
  - rewrite IH. reflexivity.
Qed.

(** ** The encoder *)

Lemma each_printable {A : Type} (f : A -> result string) (l : list A) :
  Forall (fun x => forall c, f x = Ok c -> all_printable c = true) l ->
  forall cs, each f l = Ok cs -> Forall (fun c => all_printable c = true) cs.
Proof.
  induction 1 as [|x l Hx Hl IH]; simpl; intros cs E.
  - injection E as <-. constructor.
  - destruct (f x) as [c|e] eqn:Ex; [|discriminate].
    destruct (each f l) as [cs'|e]; [|discriminate].
    injection E as <-. constructor; auto.
Qed.

Lemma each_ext {A : Type} (f g : A -> result string) (l : list A) :
  Forall (fun x => f x = g x) l -> each f l = each g l.
Proof.
  induction 1 as [|x l Hx Hl IH]; simpl.
  - reflexivity.
  - rewrite Hx, IH. reflexivity.
Qed.

Lemma each_map {A B : Type} (h : A -> B) (f : B -> result string) (l : list A) :
  each f (map h l) = each (fun x => f (h x)) l.
Proof.
  induction l as [|x l IH]; simpl.
  - reflexivity.
  - rewrite IH. reflexivity.
Qed.

(** Where [f] succeeds on the members of [l], [g] gives the same chunks. *)
Lemma each_follows {A : Type} (f g : A -> result string) (l : list A) :
  Forall (fun x => forall c, f x = Ok c -> g x = Ok c) l ->
  forall cs, each f l = Ok cs -> each g l = Ok cs.
Proof.
  induction 1 as [|x l Hx Hl IH]; simpl; intros cs E.
  - exact E.
  - destruct (f x) as [c|e] eqn:Ex; [|discriminate].
    destruct (each f l) as [cs'|e]; [|discriminate].
    rewrite (Hx c eq_refl), (IH cs' eq_refl). exact E.
Qed.

(** [each] succeeds exactly when [f] succeeds on every member. *)
Lemma each_succeeds_iff {A : Type} (f : A -> result string) (ok : A -> bool) (l : list A) :
  Forall (fun x => (exists c, f x = Ok c) <-> ok x = true) l ->
  (exists cs, each f l = Ok cs) <-> forallb ok l = true.
Proof.
  induction 1 as [|x l Hx Hl IH]; simpl.
  - split; [reflexivity|]. intros _. eexists. reflexivity.
  - split.
    + intros [cs E].
      destruct (f x) as [c|e] eqn:Ex; [|discriminate].
      destruct (each f l) as [cs'|e]; [|discriminate].
      apply andb_true_iff. split.
      * apply Hx. exists c. reflexivity.
      * apply IH. exists cs'. reflexivity.
    + intros E. apply andb_true_iff in E. destruct E as [E1 E2].
      apply Hx in E1. destruct E1 as [c ->].
      apply IH in E2. destruct E2 as [cs ->].
      eexists. reflexivity.
Qed.

Lemma each_length {A : Type} (f : A -> result string) (l : list A) (cs : list string) :
  each f l = Ok cs -> List.length cs = List.length l.
Proof.
  revert cs. induction l as [|x l IH]; simpl; intros cs E.
  - injection E as <-. reflexivity.
  - destruct (f x); [|discriminate].
    destruct (each f l); [|discriminate].
    injection E as <-. simpl. f_equal. apply IH. reflexivity.
Qed.

Lemma each_nth {A : Type} (f : A -> result string) (l : list A) :
  forall cs i x,
    each f l = Ok cs -> nth_error l i = Some x ->
    exists c, nth_error cs i = Some c /\ f x = Ok c.
Proof.
  induction l as [|y l IH]; intros cs i x E Hx.
  - destruct i; discriminate.
  - simpl in E.
    destruct (f y) as [c|] eqn:Ey; [|discriminate].
    destruct (each f l) as [cs'|] eqn:El; [|discriminate].
    injection E as <-.
    destruct i as [|i]; simpl in *.
    + injection Hx as <-. exists c. split; [reflexivity|exact Ey].
    + eapply IH; eauto.
Qed.

Lemma each_app {A : Type} (f : A -> result string) (l1 l2 : list A) :
  each f (l1 ++ l2)
  = match each f l1 with
    | Err e => Err e
    | Ok cs1 =>
        match each f l2 with
        | Err e => Err e
        | Ok cs2 => Ok (cs1 ++ cs2)%list
        end
    end.
Proof.
  induction l1 as [|x l1 IH]; simpl.
  - destruct (each f l2); reflexivity.
  - destruct (f x); [|reflexivity].
    rewrite IH. destruct (each f l1); [|reflexivity].
    destruct (each f l2); reflexivity.
Qed.

Lemma all_printable_bracketed (l r sep : string) (cs : list string) :
  all_printable l = true -> all_printable r = true -> all_printable sep = true ->
  Forall (fun c => all_printable c = true) cs ->
  all_printable (l ++ String.concat sep cs ++ r) = true.
Proof.
  intros Hl Hr Hsep Hcs.
  rewrite !all_printable_app, Hl, Hr, all_printable_concat by assumption.
  reflexivity.
Qed.

(** Whatever the encoder returns is text from space to tilde. *)
Lemma iterencode_printable (py : interpreter) (default : default_hook) (o : pyval) :
  forall room s, iterencode py default room o = Ok s -> all_printable s = true.
Proof.
  induction o as [|b|z|f|s0|items IH|items IH|entries IH|cls id]
    using pyval_nested_ind; cbn [iterencode]; intros room s E.
  - injection E as <-. reflexivity.
  - destruct b; injection E as <-; reflexivity.
  - exact (all_printable_intstr z s E).
  - injection E as <-. apply all_printable_floatstr.
  - injection E as <-. apply all_printable_basestring.
  - destruct room as [|room]; [discriminate|].
    destruct (each (iterencode py default room) items) as [cs|e] eqn:Ecs; [|discriminate].
    injection E as <-.
    apply (all_printable_bracketed "[" "]" ", " cs); try reflexivity.
    eapply each_printable; [|exact Ecs].
    eapply Forall_impl; [|exact IH]. intros x Hx c. apply Hx.
  - destruct room as [|room]; [discriminate|].
    destruct (each (iterencode py default room) items) as [cs|e] eqn:Ecs; [|discriminate].
    injection E as <-.
    apply (all_printable_bracketed "[" "]" ", " cs); try reflexivity.
    eapply each_printable; [|exact Ecs].
    eapply Forall_impl; [|exact IH]. intros x Hx c. apply Hx.
  - destruct room as [|room]; [discriminate|].
    match type of E with
    | match each ?f entries with _ => _ end = _ =>
        destruct (each f entries) as [cs|e] eqn:Ecs; [|discriminate]
    end.
    injection E as <-.
    apply (all_printable_bracketed "{" "}" ", " cs); try reflexivity.
    eapply each_printable; [|exact Ecs].
    eapply Forall_impl; [|exact IH].
    intros [k v] Hv c Hc. cbn [snd] in Hv.
    destruct (key_str k) as [ks|]; [|discriminate].
    destruct (iterencode py default room v) as [cv|] eqn:Ev; [|discriminate].
    replace c with (encode_basestring_ascii ks ++ ": " ++ cv) by congruence.
    rewrite !all_printable_app, all_printable_basestring, (Hv _ _ Ev).
    reflexivity.
  - destruct default; [discriminate|].
    destruct room; [discriminate|].
    injection E as <-. apply all_printable_basestring.
Qed.

Lemma dumps_printable (py : interpreter) (default : default_hook) (o : pyval) (s : string) :
  dumps py o default = Ok s -> all_printable s = true.
Proof. apply iterencode_printable. Qed.

Lemma dumps_one_line (py : interpreter) (default : default_hook) (o : pyval) (s : string) :
  dumps py o default = Ok s -> one_line (line s) = true.
Proof.
  intros E. apply one_line_printable. exact (dumps_printable py default o s E).
Qed.

Lemma intstr_fits (z : Z) : (exists s, intstr z = Ok s) <-> int_fits z = true.
Proof.
  unfold intstr, int_fits.
  destruct (Nat.ltb_spec int_max_str_digits (digits z)) as [H|H].
  - split.
    + intros [s E]. discriminate.
    + intros E. apply Nat.leb_le in E. lia.
  - split.
    + intros _. apply Nat.leb_le. exact H.
    + intros _. eexists. reflexivity.
Qed.

Lemma key_str_fits (k : pykey) : (exists ks, key_str k = Ok ks) <-> key_fits k = true.
Proof.
  destruct k as [s|z|f|[|]| |cls]; cbn [key_str key_fits];
    try (split; [reflexivity|intros _; eexists; reflexivity]).
  - rewrite <- intstr_fits. split.
    + intros [ks E]. destruct (intstr z) as [s|]; [|discriminate]. exists s. reflexivity.
    + intros [s ->]. eexists. reflexivity.
  - split; [intros [ks E]; discriminate|discriminate].
Qed.

(** With [default=str] the encoder returns a text exactly for the values
    that fit the room it has. *)
Lemma iterencode_fits (py : interpreter) (o : pyval) :
  forall room, (exists s, iterencode py default_str room o = Ok s) <-> fits room o = true.
Proof.
  induction o as [|b|z|f|s0|items IH|items IH|entries IH|cls id]
    using pyval_nested_ind; cbn [iterencode fits]; intros room;
    try (split; [reflexivity|intros _; eexists; reflexivity]).
  - destruct b; split; try reflexivity; intros _; eexists; reflexivity.
  - apply intstr_fits.
  - destruct room as [|room]; [split; [intros [s E]; discriminate|discriminate]|].
    rewrite <- (each_succeeds_iff (iterencode py default_str room) (fits room) items).
    + split.
      * intros [s E].
        destruct (each (iterencode py default_str room) items) as [cs|]; [|discriminate].
        exists cs. reflexivity.
      * intros [cs ->]. eexists. reflexivity.
    + eapply Forall_impl; [|exact IH]. intros x Hx. apply Hx.
  - destruct room as [|room]; [split; [intros [s E]; discriminate|discriminate]|].
    rewrite <- (each_succeeds_iff (iterencode py default_str room) (fits room) items).
    + split.
      * intros [s E].
        destruct (each (iterencode py default_str room) items) as [cs|]; [|discriminate].
        exists cs. reflexivity.
      * intros [cs ->]. eexists. reflexivity.
    + eapply Forall_impl; [|exact IH]. intros x Hx. apply Hx.
  - destruct room as [|room]; [split; [intros [s E]; discriminate|discriminate]|].
    match goal with
    | |- (exists s, match each ?f entries with _ => _ end = _) <-> forallb ?ok entries = true =>
        rewrite <- (each_succeeds_iff f ok entries)
    end.
    + split.
      * intros [s E].
        match type of E with
        | match each ?f entries with _ => _ end = _ =>
            destruct (each f entries) as [cs|]; [|discriminate]
        end.
        exists cs. reflexivity.
      * intros [cs ->]. eexists. reflexivity.
    + eapply Forall_impl; [|exact IH].
      intros [k v] Hv. cbn [snd] in Hv.
      rewrite andb_true_iff, <- key_str_fits, <- (Hv room).
      split.
      * intros [c E].
        destruct (key_str k) as [ks|]; [|discriminate].
        destruct (iterencode py default_str room v) as [cv|]; [|discriminate].
        split; eexists; reflexivity.
      * intros [[ks ->] [cv ->]]. eexists. reflexivity.
  - destruct room as [|room].
    + split; [intros [s E]; discriminate|discriminate].
    + split; [reflexivity|]. intros _. eexists. reflexivity.
Qed.

(** More room changes nothing of a text the encoder returns. *)
Lemma iterencode_more_room (py : interpreter) (default : default_hook) (o : pyval) :
  forall room room' s,
    room <= room' ->
    iterencode py default room o = Ok s -> iterencode py default room' o = Ok s.
Proof.
  induction o as [|b|z|f|s0|items IH|items IH|entries IH|cls id]
    using pyval_nested_ind; cbn [iterencode]; intros room room' s Hle E;
    try exact E.
  - destruct room as [|room]; [discriminate|].
    destruct room' as [|room']; [lia|].
    destruct (each (iterencode py default room) items) as [cs|] eqn:Ecs; [|discriminate].
    rewrite (each_follows (iterencode py default room) (iterencode py default room') items
               ltac:(eapply Forall_impl; [|exact IH]; intros x Hx c Hc;
                     apply (Hx room room' c); [lia|exact Hc]) cs Ecs).
    exact E.
  - destruct room as [|room]; [discriminate|].
    destruct room' as [|room']; [lia|].
    destruct (each (iterencode py default room) items) as [cs|] eqn:Ecs; [|discriminate].
    rewrite (each_follows (iterencode py default room) (iterencode py default room') items
               ltac:(eapply Forall_impl; [|exact IH]; intros x Hx c Hc;
                     apply (Hx room room' c); [lia|exact Hc]) cs Ecs).
    exact E.
  - destruct room as [|room]; [discriminate|].
    destruct room' as [|room']; [lia|].
    match type of E with
    | match each ?f entries with _ => _ end = _ =>
        destruct (each f entries) as [cs|] eqn:Ecs; [|discriminate];
        match goal with
        | |- match each ?g entries with _ => _ end = _ =>
            assert (Hg : each g entries = Ok cs);
            [apply (each_follows f g entries); [|exact Ecs]|rewrite Hg; exact E]
        end
    end.
    eapply Forall_impl; [|exact IH].
    intros [k v] Hv c Hc. cbn [snd] in Hv.
    destruct (key_str k) as [ks|]; [|discriminate].
    destruct (iterencode py default room v) as [cv|] eqn:Ev; [|discriminate].
    rewrite (Hv room room' cv ltac:(lia) Ev). exact Hc.
  - destruct default; [exact E|].
    destruct room as [|room]; [discriminate|].
    destruct room' as [|room']; [lia|]. exact E.
Qed.

(** What the encoder writes with [default=str] it writes, with no
    [default] at all, for the value in which every object it does not know
    has been replaced by its string form. *)
Lemma iterencode_stringify (py : interpreter) (o : pyval) :
  forall room s,
    iterencode py default_str room o = Ok s ->
    iterencode py default_none room (stringify py o) = Ok s.
Proof.
  induction o as [|b|z|f|s0|items IH|items IH|entries IH|cls id]
    using pyval_nested_ind; cbn [iterencode stringify]; intros room s E;
    try exact E.
  - destruct room as [|room]; [discriminate|].
    destruct (each (iterencode py default_str room) items) as [cs|] eqn:Ecs; [|discriminate].
    rewrite each_map.
    rewrite (each_follows (iterencode py default_str room)
               (fun x => iterencode py default_none room (stringify py x)) items
               ltac:(eapply Forall_impl; [|exact IH]; intros x Hx c Hc; exact (Hx room c Hc))
               cs Ecs).
    exact E.
  - destruct room as [|room]; [discriminate|].
    destruct (each (iterencode py default_str room) items) as [cs|] eqn:Ecs; [|discriminate].
    rewrite each_map.
    rewrite (each_follows (iterencode py default_str room)
               (fun x => iterencode py default_none room (stringify py x)) items
               ltac:(eapply Forall_impl; [|exact IH]; intros x Hx c Hc; exact (Hx room c Hc))
               cs Ecs).
    exact E.
  - destruct room as [|room]; [discriminate|].
    rewrite each_map.
    match type of E with
    | match each ?f entries with _ => _ end = _ =>
        destruct (each f entries) as [cs|] eqn:Ecs; [|discriminate];
        match goal with
        | |- match each ?g entries with _ => _ end = _ =>
            assert (Hg : each g entries = Ok cs);
            [apply (each_follows f g entries); [|exact Ecs]|rewrite Hg; exact E]
        end
    end.
    eapply Forall_impl; [|exact IH].
    intros [k v] Hv c Hc. cbn [snd] in Hv.
    destruct (key_str k) as [ks|]; [|discriminate].
    destruct (iterencode py default_str room v) as [cv|] eqn:Ev; [|discriminate].
    rewrite (Hv room cv Ev). exact Hc.
  - destruct room as [|room]; [discriminate|]. exact E.
Qed.

Lemma native_stringify (py : interpreter) (o : pyval) : native (stringify py o) = true.
Proof.
  induction o as [|b|z|f|s0|items IH|items IH|entries IH|cls id]
    using pyval_nested_ind; simpl; try reflexivity.
  - rewrite forallb_forall. intros x Hx. apply in_map_iff in Hx.
    destruct Hx as [y [<- Hy]]. rewrite Forall_forall in IH. auto.
  - rewrite forallb_forall. intros x Hx. apply in_map_iff in Hx.
    destruct Hx as [y [<- Hy]]. rewrite Forall_forall in IH. auto.
  - rewrite forallb_forall. intros x Hx. apply in_map_iff in Hx.
    destruct Hx as [[k v] [<- Hy]]. rewrite Forall_forall in IH.
    exact (IH _ Hy).
Qed.

(** On a value made of what [json] encodes by itself, [default] is not
    called. *)
Lemma iterencode_native (py : interpreter) (o : pyval) :
  native o = true ->
  forall room, iterencode py default_none room o = iterencode py default_str room o.
Proof.
  induction o as [|b|z|f|s0|items IH|items IH|entries IH|cls id]
    using pyval_nested_ind; cbn [iterencode native]; intros H room;
    try reflexivity; try discriminate.
  - destruct room as [|room]; [reflexivity|].
    rewrite (each_ext (iterencode py default_none room) (iterencode py default_str room) items);
      [reflexivity|].
    rewrite forallb_forall in H. rewrite Forall_forall in *. auto.
  - destruct room as [|room]; [reflexivity|].
    rewrite (each_ext (iterencode py default_none room) (iterencode py default_str room) items);
      [reflexivity|].
    rewrite forallb_forall in H. rewrite Forall_forall in *. auto.
  - destruct room as [|room]; [reflexivity|].
    match goal with
    | |- match each ?f entries with _ => _ end = match each ?g entries with _ => _ end =>
        rewrite (each_ext f g entries); [reflexivity|]
    end.
    rewrite forallb_forall in H. rewrite Forall_forall in *.
    intros [k v] Hin. specialize (H _ Hin). specialize (IH _ Hin).
    cbn [snd] in IH. rewrite (IH H). reflexivity.
Qed.

(** The encoder asks the interpreter for nothing but the string forms of
    the objects inside the value. *)
Lemma iterencode_same_strings (py py' : interpreter) (default : default_hook) (o : pyval) :
  same_strings py py' o ->
  forall room, iterencode py default room o = iterencode py' default room o.
Proof.
  unfold same_strings.
  induction o as [|b|z|f|s0|items IH|items IH|entries IH|cls id]
    using pyval_nested_ind; cbn [iterencode objects]; intros H room;
    try reflexivity.
  - destruct room as [|room]; [reflexivity|].
    rewrite (each_ext (iterencode py default room) (iterencode py' default room) items);
      [reflexivity|].
    rewrite Forall_forall in *. intros x Hx. apply IH; [exact Hx|].
    intros cls id Hin. apply H. apply in_flat_map. exists x. split; assumption.
  - destruct room as [|room]; [reflexivity|].
    rewrite (each_ext (iterencode py default room) (iterencode py' default room) items);
      [reflexivity|].
    rewrite Forall_forall in *. intros x Hx. apply IH; [exact Hx|].
    intros cls id Hin. apply H. apply in_flat_map. exists x. split; assumption.
  - destruct room as [|room]; [reflexivity|].
    match goal with
    | |- match each ?f entries with _ => _ end = match each ?g entries with _ => _ end =>
        rewrite (each_ext f g entries); [reflexivity|]
    end.
    rewrite Forall_forall in *.
    intros [k v] Hin. specialize (IH _ Hin). cbn [snd] in IH.
    rewrite IH; [reflexivity|].
    intros cls id Ho. apply H. apply in_flat_map. exists (k, v). split; assumption.
  - destruct default; [reflexivity|].
    destruct room; [reflexivity|].
    rewrite (H cls id (or_introl eq_refl)). reflexivity.
Qed.

(** ** The scripts, run *)

Lemma dumps_envelope (py : interpreter) (msg : pystr) :
  dumps py (PDict [(KStr (lit "error"), PStr msg)]) default_none = Ok (envelope msg).
Proof. reflexivity. Qed.

Lemma envelope_printable (msg : pystr) : all_printable (envelope msg) = true.
Proof.
  exact (dumps_printable cpython default_none _ _ (dumps_envelope cpython msg)).
Qed.

Lemma excepthook_not_empty (py : interpreter) (e : pyexc) : excepthook py e <> "".
Proof. discriminate. Qed.

Section Runs.

Context {PS : Type}.
Variable parse_title : pystr -> PS -> result pydict * PS.
Variable py : interpreter.

(** One turn of the loop: the parser is called once, a record is appended,
    and the turn ends normally whatever the parser answered. *)
Lemma parse_one_run (title : pystr) (results : list pyval) (w : world PS) :
  ParseTitleBatch.parse_one PS parse_title title results w =
  (Normal (results ++ [batch_item title (fst (parse_title title (ptt w)))])%list,
   mkWorld (stdout w) (stderr w) (calls w ++ [title])%list
     (snd (parse_title title (ptt w)))).
Proof.
  unfold ParseTitleBatch.parse_one, PTT_call. cbn.
  destruct (parse_title title (ptt w)) as [[v|e] s']; reflexivity.
Qed.

Lemma for_title_in_run (titles : list pystr) :
  forall (results : list pyval) (w : world PS),
    ParseTitleBatch.for_title_in PS parse_title titles results w =
    (Normal (results ++ batch_items titles (replies parse_title titles (ptt w)))%list,
     mkWorld (stdout w) (stderr w) (calls w ++ titles)%list
       (final_state parse_title titles (ptt w))).
Proof.
  induction titles as [|title rest IH]; intros results w.
  - cbn. rewrite !app_nil_r. destruct w; reflexivity.
  - cbn [ParseTitleBatch.for_title_in]. cbn [bind Monad_Py].
    rewrite parse_one_run, IH. cbn.
    rewrite <- !app_assoc. reflexivity.
Qed.

(** The batch script without a title: the usage error. *)
Lemma batch_run_usage (argv : list pystr) (s0 : PS) :
  List.length argv < 2 ->
  run (ParseTitleBatch.main PS parse_title argv) py s0 =
  mkProcess 1 "" (line (envelope (lit "No titles provided"))) None [] s0.
Proof.
  intros H. unfold run, ParseTitleBatch.main.
  destruct (Nat.ltb_spec (List.length argv) 2); [|lia].
  reflexivity.
Qed.

(** The batch script with titles. *)
Lemma batch_run_titles (argv : list pystr) (s0 : PS) :
  2 <= List.length argv ->
  let titles := skipn 1 argv in
  run (ParseTitleBatch.main PS parse_title argv) py s0 =
  match dumps py (PList (batch_items titles (replies parse_title titles s0))) default_str with
  | Ok s => mkProcess 0 (line s) "" None titles (final_state parse_title titles s0)
  | Err e =>
      mkProcess 1 "" (excepthook py e) (Some e) titles (final_state parse_title titles s0)
  end.
Proof.
  intros H titles. unfold run, ParseTitleBatch.main.
  destruct (Nat.ltb_spec (List.length argv) 2); [lia|].
  cbn [bind ret Monad_Py]. fold titles.
  rewrite for_title_in_run. cbn [app stdout stderr calls ptt].
  unfold json_dumps.
  destruct (dumps py _ default_str) as [s|e]; reflexivity.
Qed.

(** The single-title script without a title: the usage error. *)
Lemma single_run_usage (argv : list pystr) (s0 : PS) :
  List.length argv < 2 ->
  run (ParseTitle.main PS parse_title argv) py s0 =
  mkProcess 1 "" (line (envelope (lit "No title provided"))) None [] s0.
Proof.
  intros H. unfold run, ParseTitle.main.
  destruct (Nat.ltb_spec (List.length argv) 2); [|lia].
  reflexivity.
Qed.

(** The single-title script with a title. *)
Lemma single_run_title (argv : list pystr) (title : pystr) (s0 : PS) :
  nth_error argv 1 = Some title ->
  run (ParseTitle.main PS parse_title argv) py s0 =
  match fst (parse_title title s0) with
  | Ok entries =>
      match dumps py (PDict entries) default_str with
      | Ok s => mkProcess 0 (line s) "" None [title] (snd (parse_title title s0))
      | Err e =>
          mkProcess 1 "" (line (envelope (exc_str e))) None [title]
            (snd (parse_title title s0))
      end
  | Err e =>
      mkProcess 1 "" (line (envelope (exc_str e))) None [title]
        (snd (parse_title title s0))
  end.
Proof.
  intros H. unfold run, ParseTitle.main.
  assert (Hlen : 2 <= List.length argv).
  { destruct argv as [|a [|b l]]; try discriminate. simpl. lia. }
  destruct (Nat.ltb_spec (List.length argv) 2); [lia|].
  unfold argv_item. rewrite H.
  unfold PTT_call, json_dumps. cbn.
  destruct (parse_title title s0) as [[v|e] s']; cbn.
  - destruct (dumps py (PDict v) default_str) as [s|e]; reflexivity.
  - reflexivity.
Qed.

End Runs.

(** ** The records of the batch script *)

Lemma replies_length {PS : Type} (parse_title : pystr -> PS -> result pydict * PS)
    (titles : list pystr) :
  forall s, List.length (replies parse_title titles s) = List.length titles.
Proof.
  induction titles as [|title rest IH]; intros s; simpl.
  - reflexivity.
  - rewrite IH. reflexivity.
Qed.

Lemma replies_deterministic {PS : Type} (parse_title : pystr -> PS -> result pydict * PS)
    (f : pystr -> result pydict) :
  (forall title s, fst (parse_title title s) = f title) ->
  forall titles s, replies parse_title titles s = map f titles.
Proof.
  intros Hf. induction titles as [|t rest IH]; intros s; simpl.
  - reflexivity.
  - rewrite Hf, IH. reflexivity.
Qed.

Lemma replies_app {PS : Type} (parse_title : pystr -> PS -> result pydict * PS)
    (l1 l2 : list pystr) :
  forall s,
    replies parse_title (l1 ++ l2) s
    = (replies parse_title l1 s ++ replies parse_title l2 (final_state parse_title l1 s))%list.
Proof.
  induction l1 as [|t l1 IH]; intros s; simpl.
  - reflexivity.
  - rewrite IH. reflexivity.
Qed.

Lemma final_state_app {PS : Type} (parse_title : pystr -> PS -> result pydict * PS)
    (l1 l2 : list pystr) :
  forall s,
    final_state parse_title (l1 ++ l2) s
    = final_state parse_title l2 (final_state parse_title l1 s).
Proof.
  induction l1 as [|t l1 IH]; intros s; simpl.
  - reflexivity.
  - rewrite IH. reflexivity.
Qed.

Lemma batch_items_length (titles : list pystr) :
  forall rs, List.length rs = List.length titles ->
             List.length (batch_items titles rs) = List.length titles.
Proof.
  induction titles as [|title rest IH]; intros [|r rs] H; simpl in *;
    try reflexivity; try discriminate.
  rewrite IH by lia. reflexivity.
Qed.

Lemma batch_items_nth (titles : list pystr) :
  forall rs i title r,
    nth_error titles i = Some title ->
    nth_error rs i = Some r ->
    nth_error (batch_items titles rs) i = Some (batch_item title r).
Proof.
  induction titles as [|t rest IH]; intros [|r0 rs] [|i] title r Ht Hr;
    simpl in *; try discriminate.
  - congruence.
  - eapply IH; eauto.
Qed.

Lemma batch_items_app (l1 l2 : list pystr) :
  forall rs1 rs2,
    List.length rs1 = List.length l1 ->
    batch_items (l1 ++ l2) (rs1 ++ rs2)
    = (batch_items l1 rs1 ++ batch_items l2 rs2)%list.
Proof.
  induction l1 as [|t l1 IH]; intros [|r rs1] rs2 H; simpl in *; try discriminate.
  - reflexivity.
  - rewrite IH by lia. reflexivity.
Qed.

Lemma nth_error_same_length {A B : Type} (l : list A) (l' : list B) (i : nat) (x : A) :
  List.length l' = List.length l -> nth_error l i = Some x ->
  exists y, nth_error l' i = Some y.
Proof.
  intros Hlen Hx.
  destruct (nth_error l' i) as [y|] eqn:E.
  - exists y. reflexivity.
  - apply nth_error_None in E.
    assert (nth_error l i <> None) by congruence.
    apply nth_error_Some in H. lia.
Qed.

Lemma skipn_1_nth_length {A : Type} (l : list A) (i : nat) (x : A) :
  nth_error (skipn 1 l) i = Some x -> 2 <= List.length l.
Proof.
  destruct l as [|a [|b l]]; simpl; intros H.
  - destruct i; discriminate.
  - destruct i; discriminate.
  - lia.
Qed.

Lemma batch_item_reports (title : pystr) (r : result pydict) :
  reports title r (batch_item title r).
Proof.
  destruct r as [v|e]; repeat split.
Qed.

(** The parser answers with a dict or raises: a record has exactly one of
    its two fields set. *)
Lemma batch_item_one_non_null (title : pystr) (r : result pydict) :
  one_non_null (batch_item title r).
Proof.
  destruct r as [entries|e].
  - exists (PDict entries), PNone. repeat split. left. split; reflexivity.
  - exists PNone, (PStr (exc_str e)). repeat split. right. split; reflexivity.
Qed.

(** The text of a record: its three members in the order the script gives
    them, the text of the dict the parser answered, or [null], under
    [parsed]. *)
Lemma iterencode_batch_item (py : interpreter) (room : nat) (title : pystr)
    (r : result pydict) :
  iterencode py default_str (S room) (batch_item title r)
  = match r with
    | Ok entries =>
        match iterencode py default_str room (PDict entries) with
        | Ok s => Ok (record_text title s "null")
        | Err e => Err e
        end
    | Err e => Ok (record_text title "null" (encode_basestring_ascii (exc_str e)))
    end.
Proof.
  destruct r as [entries|e]; cbn [batch_item].
  - cbn [iterencode each key_str].
    change (match room with
            | O => Err too_deep
            | S room' =>
                match
                  each (fun entry : pykey * pyval =>
                          match entry with
                          | (k, v) =>
                              match key_str k with
                              | Err e => Err e
                              | Ok ks =>
                                  match iterencode py default_str room' v with
                                  | Err e => Err e
                                  | Ok c => Ok (encode_basestring_ascii ks ++ ": " ++ c)
                                  end
                              end
                          end) entries
                with
                | Err e => Err e
                | Ok cs => Ok ("{" ++ String.concat ", " cs ++ "}")
                end
            end)
      with (iterencode py default_str room (PDict entries)).
    destruct (iterencode py default_str room (PDict entries)) as [s|e]; [|reflexivity].
    f_equal. unfold record_text. cbn [String.concat].
    rewrite !append_assoc. reflexivity.
  - cbn [iterencode each key_str].
    f_equal. unfold record_text. cbn [String.concat].
    rewrite !append_assoc. reflexivity.
Qed.

Lemma fits_batch_item (room : nat) (title : pystr) (r : result pydict) :
  fits (S room) (batch_item title r) = reply_fits room r.
Proof.
  destruct r as [entries|e]; cbn [batch_item reply_fits].
  - change (fits (S room) (PDict ?l))
      with (forallb (fun entry : pykey * pyval =>
                       match entry with
                       | (k, v) => key_fits k && fits room v
                       end) l).
    cbn [forallb key_fits andb]. rewrite !andb_true_r. reflexivity.
  - reflexivity.
Qed.

Lemma fits_batch_items (room : nat) (titles : list pystr) :
  forall rs, List.length rs = List.length titles ->
             forallb (fits (S room)) (batch_items titles rs) = forallb (reply_fits room) rs.
Proof.
  induction titles as [|title rest IH]; intros [|r rs] H; simpl in H;
    try reflexivity; try discriminate.
  cbn [batch_items forallb].
  rewrite fits_batch_item. f_equal.
  apply (IH rs). lia.
Qed.

(** The text of the array the batch script writes: the texts of its
    records in order, between brackets, a comma and a space between two of
    them. *)
Lemma dumps_list_chunks (py : interpreter) (items : list pyval) (s : string) :
  dumps py (PList items) default_str = Ok s ->
  exists cs, each (iterencode py default_str (nesting py)) items = Ok cs /\
             s = "[" ++ String.concat ", " cs ++ "]".
Proof.
  unfold dumps, recursion_room. cbn [iterencode]. intros E.
  destruct (each (iterencode py default_str (nesting py)) items) as [cs|]; [|discriminate].
  exists cs. split; [reflexivity|congruence].
Qed.

(** When the array is written, the interpreter had room for the records
    and what is inside them. *)
Lemma batch_room (py : interpreter) (title : pystr) (r : result pydict) (c : string) :
  iterencode py default_str (nesting py) (batch_item title r) = Ok c ->
  exists room, nesting py = S room.
Proof.
  destruct (nesting py) as [|room]; intros E.
  - destruct r; discriminate.
  - exists room. reflexivity.
Qed.

Lemma in_batch_items (titles : list pystr) (f : pystr -> result pydict) (item : pyval) :
  In item (batch_items titles (map f titles)) ->
  exists title, In title titles /\ item = batch_item title (f title).
Proof.
  induction titles as [|t rest IH]; cbn [batch_items map]; intros H.
  - destruct H.
  - destruct H as [<-|H].
    + exists t. split; [left; reflexivity|reflexivity].
    + destruct (IH H) as [title [Hin ->]].
      exists title. split; [right; exact Hin|reflexivity].
Qed.

Lemma objects_batch_item (title : pystr) (r : result pydict) (cls : pystr) (id : N) :
  In (cls, id) (objects (batch_item title r)) ->
  exists entries, r = Ok entries /\ In (cls, id) (objects (PDict entries)).
Proof.
  destruct r as [entries|e]; cbn [batch_item objects flat_map app]; intros H.
  - rewrite app_nil_r in H. exists entries. split; [reflexivity|exact H].
  - destruct H.
Qed.

(** The objects in the list of records are those in the results of the
    parser. *)
Lemma batch_same_strings (py py' : interpreter) (titles : list pystr)
    (f : pystr -> result pydict) :
  (forall title entries,
      In title titles -> f title = Ok entries -> same_strings py py' (PDict entries)) ->
  same_strings py py' (PList (batch_items titles (map f titles))).
Proof.
  intros Hstr cls id Hin. cbn [objects] in Hin.
  apply in_flat_map in Hin. destruct Hin as [item [Hitem Hobj]].
  destruct (in_batch_items _ _ _ Hitem) as [title [Ht ->]].
  destruct (objects_batch_item _ _ _ _ Hobj) as [entries [Hr Hin]].
  exact (Hstr title entries Ht Hr cls id Hin).
Qed.

(** * The properties *)

(** ** C1 *)


(** ** C2 *)

(** C2.  For every title of a batch invocation the record built has exactly
    one of [parsed] and [error] set: when the parser succeeds on the title,
    [parsed] is the dict it returned and [error] is [None]; when it fails,
    [parsed] is [None] and [error] is the message of the exception, a str.
    The records are those of the titles, in order, one each, and the list
    of them is what the script hands to [json.dumps]. *)
Theorem batch_item_parsed_or_error {PS : Type}
    (parse_title : pystr -> PS -> result pydict * PS) (argv : list pystr) (s0 : PS) :
  2 <= List.length argv ->
  let titles := skipn 1 argv in
  exists results w,
    ParseTitleBatch.for_title_in PS parse_title titles [] (mkWorld "" "" [] s0)
      = (Normal results, w) /\
    List.length results = List.length titles /\
    (forall i title r,
       nth_error titles i = Some title ->
       nth_error (replies parse_title titles s0) i = Some r ->
       exists item,
         nth_error results i = Some item /\
         reports title r item /\
         one_non_null item) /\
    (forall py,
       run (ParseTitleBatch.main PS parse_title argv) py s0
       = match dumps py (PList results) default_str with
         | Ok s => mkProcess 0 (line s) "" None (calls w) (ptt w)
         | Err e => mkProcess 1 "" (excepthook py e) (Some e) (calls w) (ptt w)
         end).
Proof.
  intros H titles.
  eexists. eexists. split.
  { rewrite for_title_in_run. cbn [app ptt]. reflexivity. }
  split.
  { apply batch_items_length, replies_length. }
  split.
  - intros i title r Ht Hr.
    exists (batch_item title r). split.
    { apply batch_items_nth; assumption. }
    split; [apply batch_item_reports|apply batch_item_one_non_null].
  - intros py.
    pose proof (batch_run_titles parse_title py argv s0 H) as Hrun.
    cbv zeta in Hrun. fold titles in Hrun. rewrite Hrun. reflexivity.
Qed.

Lemma batch_item_parsed_or_error_witness :
  2 <= List.length two_titles /\
  exists results w,
    ParseTitleBatch.for_title_in nat demo_parser (skipn 1 two_titles) []
      (mkWorld "" "" [] 0) = (Normal results, w) /\
    (exists item,
       nth_error results 0 = Some item /\
       getitem item "parsed"
         = Some (PDict [(KStr (lit "title"), PStr (lit "The.Matrix.1999.1080p"));
                        (KStr (lit "released"), PObj (lit "date") 0)]) /\
       getitem item "error" = Some PNone /\
       one_non_null item) /\
    (exists item,
       nth_error results 1 = Some item /\
       getitem item "parsed" = Some PNone /\
       getitem item "error" = Some (PStr (lit "cannot parse")) /\
       one_non_null item).
Proof.
  assert (H : 2 <= List.length two_titles) by (simpl; lia).
  split; [exact H|].
  destruct (batch_item_parsed_or_error demo_parser two_titles 0 H)
    as [results [w [Hloop [_ [Hitems _]]]]].
  exists results, w. split; [exact Hloop|]. split.
  - destruct (Hitems 0 (lit "The.Matrix.1999.1080p")
                (Ok [(KStr (lit "title"), PStr (lit "The.Matrix.1999.1080p"));
                     (KStr (lit "released"), PObj (lit "date") 0)])
                eq_refl eq_refl) as [item [Hnth [[_ [Hp He]] Hone]]].
    exists item. repeat split; assumption.
  - destruct (Hitems 1 (lit "bad") (Err (ValueError (lit "cannot parse")))
                eq_refl eq_refl) as [item [Hnth [[_ [Hp He]] Hone]]].
    exists item. repeat split; assumption.
Defined.

(** ** C3 *)


(** ** C4 *)

(** C4.  Without a positional argument the single-title script writes
    exactly the envelope with the message [No title provided] to standard
    error, and the batch script the envelope with the message
    [No titles provided]; both write nothing to standard output and end
    with status 1. *)
Theorem usage_error_envelope {PS : Type}
    (parse_title : pystr -> PS -> result pydict * PS) (argv : list pystr)
    (py : interpreter) (s0 : PS) :
  List.length argv < 2 ->
  let single := run (ParseTitle.main PS parse_title argv) py s0 in
  let batch := run (ParseTitleBatch.main PS parse_title argv) py s0 in
  err single
    = "{" ++ quoted "error" ++ ": " ++ quoted "No title provided" ++ "}" ++ String newline "" /\
  out single = "" /\ exit_status single = 1%Z /\ traceback single = None /\
  err batch
    = "{" ++ quoted "error" ++ ": " ++ quoted "No titles provided" ++ "}" ++ String newline "" /\
  out batch = "" /\ exit_status batch = 1%Z /\ traceback batch = None.
Proof.
  intros H single batch. subst single batch.
  rewrite single_run_usage, batch_run_usage by exact H.
  repeat split.
Qed.

Lemma usage_error_envelope_witness :
  List.length no_arguments < 2 /\
  err (run (ParseTitle.main nat demo_parser no_arguments) cpython 0)
    = "{" ++ quoted "error" ++ ": " ++ quoted "No title provided" ++ "}" ++ String newline "" /\
  err (run (ParseTitleBatch.main nat demo_parser no_arguments) cpython 0)
    = "{" ++ quoted "error" ++ ": " ++ quoted "No titles provided" ++ "}" ++ String newline "".
Proof.
  assert (H : List.length no_arguments < 2) by (simpl; lia).
  split; [exact H|].
  destruct (usage_error_envelope demo_parser no_arguments cpython 0 H)
    as [Hs [_ [_ [_ [Hb _]]]]].
  split; [exact Hs|exact Hb].
Defined.

(** ** C5 *)


(** ** C6 *)

(** C6.  The single-title script uses the first positional argument and
    nothing else of the command line: whatever follows the title (and
    whatever the program is called) the parser is called once, on the
    title, and the process ends the same way with the same output as when
    the title is the only argument. *)
Theorem single_ignores_extra_arguments {PS : Type}
    (parse_title : pystr -> PS -> result pydict * PS)
    (prog prog' title : pystr) (extra : list pystr) (py : interpreter) (s0 : PS) :
  run (ParseTitle.main PS parse_title (prog :: title :: extra)) py s0
    = run (ParseTitle.main PS parse_title [prog'; title]) py s0 /\
  parser_calls (run (ParseTitle.main PS parse_title (prog :: title :: extra)) py s0) = [title].
Proof.
  rewrite (single_run_title parse_title py (prog :: title :: extra) title s0 eq_refl).
  rewrite (single_run_title parse_title py [prog'; title] title s0 eq_refl).
  split; [reflexivity|].
  destruct (fst (parse_title title s0)) as [v|e];
    [destruct (dumps py (PDict v) default_str)|]; reflexivity.
Qed.

(** ** C7 *)


(** ** C8 *)




(** ** C9 *)

(** C9.  Without a positional argument neither script calls the parser: no
    call is made and the state of the parser is the one it started in; all
    there is to see is the envelope on standard error and status 1. *)
Theorem usage_error_skips_parser {PS : Type}
    (parse_title : pystr -> PS -> result pydict * PS) (argv : list pystr)
    (py : interpreter) (s0 : PS) :
  List.length argv < 2 ->
  let single := run (ParseTitle.main PS parse_title argv) py s0 in
  let batch := run (ParseTitleBatch.main PS parse_title argv) py s0 in
  parser_calls single = [] /\ parser_state single = s0 /\
  parser_calls batch = [] /\ parser_state batch = s0 /\
  single = mkProcess 1 "" (line (envelope (lit "No title provided"))) None [] s0 /\
  batch = mkProcess 1 "" (line (envelope (lit "No titles provided"))) None [] s0.
Proof.
  intros H single batch. subst single batch.
  rewrite single_run_usage, batch_run_usage by exact H.
  repeat split.
Qed.

Lemma usage_error_skips_parser_witness :
  List.length no_arguments < 2 /\
  parser_calls (run (ParseTitle.main nat demo_parser no_arguments) cpython 0) = [] /\
  parser_calls (run (ParseTitleBatch.main nat demo_parser no_arguments) cpython 0) = [].
Proof.
  assert (H : List.length no_arguments < 2) by (simpl; lia).
  split; [exact H|].
  destruct (usage_error_skips_parser demo_parser no_arguments cpython 0 H)
    as [Hs [_ [Hb _]]].
  split; [exact Hs|exact Hb].
Defined.

(** ** C10 *)


(** * Further properties *)

(** ** What the scripts write is ASCII *)

(** X1.  Whatever the parser answers, and whatever characters the titles
    and the messages of exceptions hold, what a script writes to a stream
    is nothing, or one line made of characters from space to tilde: no
    byte outside ASCII and no control character but the final newline.
    The single-title script never leaves an exception to the interpreter.
    The batch script does when [json.dumps] raises: it has then written
    nothing itself, and standard error holds the traceback of the
    interpreter, of which nothing is claimed. *)
Theorem scripts_write_ascii_lines {PS : Type}
    (parse_title : pystr -> PS -> result pydict * PS) (argv : list pystr)
    (py : interpreter) (s0 : PS) :
  let single := run (ParseTitle.main PS parse_title argv) py s0 in
  let batch := run (ParseTitleBatch.main PS parse_title argv) py s0 in
  traceback single = None /\
  (out single = "" \/ one_line (out single) = true) /\ ascii_lines (out single) = true /\
  (err single = "" \/ one_line (err single) = true) /\ ascii_lines (err single) = true /\
  (out batch = "" \/ one_line (out batch) = true) /\ ascii_lines (out batch) = true /\
  match traceback batch with
  | None => (err batch = "" \/ one_line (err batch) = true) /\ ascii_lines (err batch) = true
  | Some e => out batch = "" /\ err batch = excepthook py e
  end.
Proof.
  intros single batch. subst single batch.
  assert (Hline : forall s, all_printable s = true ->
                            (line s = "" \/ one_line (line s) = true) /\
                            ascii_lines (line s) = true).
  { intros s Hs. split; [right; apply one_line_printable; exact Hs|].
    apply ascii_lines_line; exact Hs. }
  assert (Hnone : ("" = "" \/ one_line "" = true) /\ ascii_lines "" = true).
  { split; [left; reflexivity|reflexivity]. }
  destruct (Nat.ltb_spec (List.length argv) 2) as [Hshort|Hlong].
  - rewrite single_run_usage, batch_run_usage by exact Hshort.
    cbn [out err traceback].
    destruct (Hline _ (envelope_printable (lit "No title provided"))) as [H1 H2].
    destruct (Hline _ (envelope_printable (lit "No titles provided"))) as [H3 H4].
    destruct Hnone as [H5 H6].
    repeat split; assumption.
  - destruct (nth_error argv 1) as [title|] eqn:E;
      [|apply nth_error_None in E; lia].
    rewrite (single_run_title parse_title py argv title s0 E).
    pose proof (batch_run_titles parse_title py argv s0 Hlong) as Hb.
    cbv zeta in Hb. rewrite Hb. clear Hb.
    destruct Hnone as [H5 H6].
    assert (Hsingle :
      forall p : process PS,
        (exists s, all_printable s = true /\ out p = line s /\ err p = "") \/
        (exists s, all_printable s = true /\ out p = "" /\ err p = line s) ->
        (out p = "" \/ one_line (out p) = true) /\ ascii_lines (out p) = true /\
        (err p = "" \/ one_line (err p) = true) /\ ascii_lines (err p) = true).
    { intros p [[s [Hs [-> ->]]]|[s [Hs [-> ->]]]];
        destruct (Hline s Hs) as [H1 H2]; repeat split; assumption. }
    match goal with
    | |- traceback ?p = None /\ _ =>
        assert (Htb : traceback p = None);
        [|assert (Hp := Hsingle p)]
    end.
    { destruct (fst (parse_title title s0)) as [v|e];
        [destruct (dumps py (PDict v) default_str)|]; reflexivity. }
    match type of Hp with
    | ?A -> _ => assert (Ha : A)
    end.
    { destruct (fst (parse_title title s0)) as [v|e].
      - destruct (dumps py (PDict v) default_str) as [s|e] eqn:Ed.
        + left. exists s. split; [exact (dumps_printable _ _ _ _ Ed)|].
          split; reflexivity.
        + right. exists (envelope (exc_str e)).
          split; [apply envelope_printable|]. split; reflexivity.
      - right. exists (envelope (exc_str e)).
        split; [apply envelope_printable|]. split; reflexivity. }
    destruct (Hp Ha) as [A1 [A2 [A3 A4]]].
    split; [exact Htb|]. split; [exact A1|]. split; [exact A2|].
    split; [exact A3|]. split; [exact A4|].
    destruct (dumps py _ default_str) as [s|e] eqn:Ed; cbn [out err traceback].
    + destruct (Hline s (dumps_printable _ _ _ _ Ed)) as [H1 H2].
      repeat split; assumption.
    + repeat split; assumption.
Qed.

(** ** When json.dumps fails *)

Lemma each_error {A : Type} (f : A -> result string) (l : list A) (e : pyexc) :
  each f l = Err e -> Exists (fun x => f x = Err e) l.
Proof.
  induction l as [|x l IH]; cbn [each]; intros E.
  - discriminate.
  - destruct (f x) as [c|e'] eqn:Ex.
    + right. apply IH.
      destruct (each f l) as [cs|e'']; [discriminate|exact E].
    + left. congruence.
Qed.

Lemma intstr_error (z : Z) (e : pyexc) : intstr z = Err e -> e = int_too_long.
Proof.
  unfold intstr. destruct (int_max_str_digits <? digits z)%nat; congruence.
Qed.

Lemma key_str_error (k : pykey) (e : pyexc) :
  key_str k = Err e -> e = int_too_long \/ exists cls, e = key_rejected cls.
Proof.
  destruct k as [s|z|f|[|]| |cls]; cbn [key_str]; intros E; try discriminate.
  - left. destruct (intstr z) as [s|e'] eqn:Ez; [discriminate|].
    apply (intstr_error z). congruence.
  - right. exists cls. congruence.
Qed.

Lemma iterencode_error (py : interpreter) (o : pyval) :
  forall room e,
    iterencode py default_str room o = Err e ->
    e = too_deep \/ e = int_too_long \/ exists cls, e = key_rejected cls.
Proof.
  induction o as [|b|z|f|s0|items IH|items IH|entries IH|cls id]
    using pyval_nested_ind; cbn [iterencode]; intros room e E;
    try discriminate.
  - destruct b; discriminate.
  - right. left. exact (intstr_error z e E).
  - destruct room as [|room]; [left; congruence|].
    destruct (each (iterencode py default_str room) items) as [cs|e'] eqn:Ecs;
      [discriminate|].
    apply each_error in Ecs. apply Exists_exists in Ecs. destruct Ecs as [x [Hx Ex]].
    rewrite Forall_forall in IH. apply (IH x Hx room). congruence.
  - destruct room as [|room]; [left; congruence|].
    destruct (each (iterencode py default_str room) items) as [cs|e'] eqn:Ecs;
      [discriminate|].
    apply each_error in Ecs. apply Exists_exists in Ecs. destruct Ecs as [x [Hx Ex]].
    rewrite Forall_forall in IH. apply (IH x Hx room). congruence.
  - destruct room as [|room]; [left; congruence|].
    match type of E with
    | match each ?f entries with _ => _ end = _ =>
        destruct (each f entries) as [cs|e'] eqn:Ecs; [discriminate|]
    end.
    apply each_error in Ecs. apply Exists_exists in Ecs.
    destruct Ecs as [[k v] [Hx Ex]].
    rewrite Forall_forall in IH. specialize (IH _ Hx). cbn [snd] in IH.
    replace e with e' by congruence.
    destruct (key_str k) as [ks|ek] eqn:Ek.
    + destruct (iterencode py default_str room v) as [cv|ev] eqn:Ev; [discriminate|].
      apply (IH room). congruence.
    + right. apply (key_str_error k). congruence.
  - destruct room; [left; congruence|discriminate].
Qed.






(** ** The loop of the batch script *)

(** X5.  The loop of the batch script over the titles [l1 ++ l2] does what
    the loop over [l1] followed by the loop over [l2] does: the second
    starts in the world (streams, parser state) the first one leaves, and
    the records are those of the first followed by those of the second.  In
    particular the record of a title does not depend on the titles after
    it. *)
Theorem batch_loop_app {PS : Type}
    (parse_title : pystr -> PS -> result pydict * PS) (l1 l2 : list pystr)
    (w : world PS) :
  exists r1 w1 r2 w2,
    ParseTitleBatch.for_title_in PS parse_title l1 [] w = (Normal r1, w1) /\
    ParseTitleBatch.for_title_in PS parse_title l2 [] w1 = (Normal r2, w2) /\
    ParseTitleBatch.for_title_in PS parse_title (l1 ++ l2) [] w
      = (Normal (r1 ++ r2)%list, w2) /\
    List.length r1 = List.length l1 /\ List.length r2 = List.length l2.
Proof.
  eexists. eexists. eexists. eexists.
  split; [rewrite for_title_in_run; reflexivity|].
  split; [rewrite for_title_in_run; reflexivity|].
  split.
  - rewrite for_title_in_run. cbn [app ptt calls stdout stderr].
    rewrite replies_app, final_state_app, batch_items_app, app_assoc
      by apply replies_length.
    reflexivity.
  - cbn [app]. split; apply batch_items_length, replies_length.
Qed.

(** X6.  The batch script reads its titles from [sys.argv[1:]]: the name
    the script is run under changes nothing of what the process does. *)
Theorem batch_ignores_program_name {PS : Type}
    (parse_title : pystr -> PS -> result pydict * PS)
    (prog prog' : pystr) (titles : list pystr) (py : interpreter) (s0 : PS) :
  run (ParseTitleBatch.main PS parse_title (prog :: titles)) py s0
  = run (ParseTitleBatch.main PS parse_title (prog' :: titles)) py s0.
Proof.
  destruct titles as [|t titles].
  - rewrite !batch_run_usage by (simpl; lia). reflexivity.
  - pose proof (batch_run_titles parse_title py (prog :: t :: titles) s0) as H1.
    pose proof (batch_run_titles parse_title py (prog' :: t :: titles) s0) as H2.
    cbv zeta in H1, H2. rewrite H1, H2 by (simpl; lia). reflexivity.
Qed.

(** ** A title can be read back from its text *)

Ltac div_mod_facts n k :=
  pose proof (N.div_mod' n k);
  pose proof (N.mod_lt n k ltac:(discriminate)).

Lemma hex_digits_value (n : N) :
  (n < 65536)%N ->
  (4096 * ((n / 4096) mod 16) + 256 * ((n / 256) mod 16)
   + 16 * ((n / 16) mod 16) + n mod 16 = n)%N.
Proof.
  intros H.
  assert (H1 : (n / 256 = n / 16 / 16)%N) by (rewrite N.Div0.div_div; reflexivity).
  assert (H2 : (n / 4096 = n / 16 / 16 / 16)%N) by (rewrite !N.Div0.div_div; reflexivity).
  rewrite H1, H2. clear H1 H2.
  div_mod_facts n 16%N. div_mod_facts (n / 16)%N 16%N.
  div_mod_facts (n / 16 / 16)%N 16%N. div_mod_facts (n / 16 / 16 / 16)%N 16%N.
  generalize dependent (n / 16 / 16 / 16 / 16)%N.
  generalize dependent ((n / 16 / 16 / 16) mod 16)%N.
  generalize dependent (n / 16 / 16 / 16)%N.
  generalize dependent ((n / 16 / 16) mod 16)%N.
  generalize dependent (n / 16 / 16)%N.
  generalize dependent ((n / 16) mod 16)%N.
  generalize dependent (n / 16)%N.
  generalize dependent (n mod 16)%N.
  intros. lia.
Qed.

Lemma hex_digit_of (n k : N) :
  N.land (N.shiftr n k) 15 = ((n / 2 ^ k) mod 16)%N.
Proof.
  change 15%N with (N.ones 4). rewrite N.land_ones, N.shiftr_div_pow2. reflexivity.
Qed.

Lemma unhex_hex_digit (d : N) : (d < 16)%N -> unhex (hex_digit d) = Some d.
Proof.
  intros H. unfold unhex, hex_digit.
  destruct (N.ltb_spec d 10) as [Hd|Hd]; cbv zeta;
    rewrite N_ascii_embedding by lia.
  - assert (E : ((48 <=? 48 + d) && (48 + d <=? 57))%N = true)
      by (apply andb_true_iff; split; apply N.leb_le; lia).
    rewrite E. f_equal. lia.
  - assert (E1 : ((48 <=? 87 + d) && (87 + d <=? 57))%N = false)
      by (apply andb_false_iff; right; apply N.leb_gt; lia).
    assert (E2 : ((97 <=? 87 + d) && (87 + d <=? 102))%N = true)
      by (apply andb_true_iff; split; apply N.leb_le; lia).
    rewrite E1, E2. f_equal. lia.
Qed.

Lemma unhex4_hex4 (n : N) (rest : string) :
  (n < 65536)%N ->
  exists h3 h2 h1 h0,
    hex4 n ++ rest = String h3 (String h2 (String h1 (String h0 rest))) /\
    unhex4 h3 h2 h1 h0 = Some n.
Proof.
  intros H. unfold hex4.
  do 4 eexists. split; [reflexivity|].
  unfold unhex4.
  rewrite !unhex_hex_digit by apply land_15_lt.
  f_equal.
  replace (N.land n 15) with (N.land (N.shiftr n 0) 15) by reflexivity.
  rewrite !hex_digit_of.
  change (2 ^ 12)%N with 4096%N. change (2 ^ 8)%N with 256%N.
  change (2 ^ 4)%N with 16%N. change (2 ^ 0)%N with 1%N.
  rewrite N.div_1_r. apply hex_digits_value. exact H.
Qed.

Lemma scanstring_plain (a : ascii) (rest : string) :
  a <> dquote -> a <> "\"%char ->
  scanstring (String a rest) = option_map (cons (N_of_ascii a)) (scanstring rest).
Proof.
  intros H1 H2. cbn [scanstring].
  apply Ascii.eqb_neq in H1. apply Ascii.eqb_neq in H2.
  rewrite H1, H2. reflexivity.
Qed.

Lemma scanstring_u (h3 h2 h1 h0 : ascii) (u : N) (rest : string) :
  unhex4 h3 h2 h1 h0 = Some u ->
  ((55296 <=? u) && (u <? 56320))%N = false ->
  scanstring (String "\" (String "u" (String h3 (String h2 (String h1 (String h0 rest))))))
  = option_map (cons u) (scanstring rest).
Proof.
  intros H1 H2. cbn [scanstring].
  change (Ascii.eqb "\" dquote) with false. change (Ascii.eqb "\" "\") with true.
  change (Ascii.eqb "u" "u") with true.
  cbv iota. rewrite H1, H2. reflexivity.
Qed.

Lemma scanstring_pair (h3 h2 h1 h0 l3 l2 l1 l0 : ascii) (hi lo : N) (rest : string) :
  unhex4 h3 h2 h1 h0 = Some hi ->
  ((55296 <=? hi) && (hi <? 56320))%N = true ->
  unhex4 l3 l2 l1 l0 = Some lo ->
  ((56320 <=? lo) && (lo <? 57344))%N = true ->
  scanstring
    (String "\" (String "u" (String h3 (String h2 (String h1 (String h0
       (String "\" (String "u" (String l3 (String l2 (String l1 (String l0 rest))))))))))))
  = option_map (cons (65536 + (1024 * (hi - 55296) + (lo - 56320)))%N) (scanstring rest).
Proof.
  intros H1 H2 H3 H4. cbn [scanstring].
  change (Ascii.eqb "\" dquote) with false. change (Ascii.eqb "\" "\") with true.
  change (Ascii.eqb "u" "u") with true.
  cbv iota. rewrite H1, H2. cbn [andb]. rewrite H3, H4. reflexivity.
Qed.

Lemma lor_high_bits (a y : N) :
  (y < 1024)%N -> N.lor (a * 1024) y = (a * 1024 + y)%N.
Proof.
  intros H.
  assert (E : N.land (a * 1024) y = 0%N).
  { apply N.bits_inj. intros i. rewrite N.land_spec, N.bits_0.
    change 1024%N with (2 ^ 10)%N. rewrite <- N.shiftl_mul_pow2.
    destruct (N.ltb_spec i 10) as [Hi|Hi].
    - rewrite N.shiftl_spec_low by exact Hi. reflexivity.
    - rewrite <- (N.mod_small y (2 ^ 10)) by exact H.
      rewrite N.mod_pow2_bits_high by exact Hi. apply andb_false_r. }
  rewrite <- N.lxor_lor by exact E.
  symmetry. apply N.add_nocarry_lxor. exact E.
Qed.

Lemma surrogates_value (c : N) :
  (65536 <= c < 1114112)%N ->
  let n := (c - 65536)%N in
  let s1 := N.lor 55296 (N.land (N.shiftr n 10) 1023) in
  let s2 := N.lor 56320 (N.land n 1023) in
  (55296 <= s1 < 56320)%N /\ (56320 <= s2 < 57344)%N /\
  (65536 + (1024 * (s1 - 55296) + (s2 - 56320)) = c)%N.
Proof.
  intros H n s1 s2.
  assert (Hn : (n < 1048576)%N) by (subst n; lia).
  assert (E1 : N.land (N.shiftr n 10) 1023 = (n / 1024)%N).
  { change 1023%N with (N.ones 10). rewrite N.land_ones, N.shiftr_div_pow2.
    change (2 ^ 10)%N with 1024%N.
    apply N.mod_small.
    div_mod_facts n 1024%N.
    generalize dependent (n / 1024)%N. generalize dependent (n mod 1024)%N.
    intros. lia. }
  assert (E2 : N.land n 1023 = (n mod 1024)%N).
  { change 1023%N with (N.ones 10). rewrite N.land_ones. reflexivity. }
  div_mod_facts n 1024%N.
  assert (Hq : (n / 1024 < 1024)%N).
  { generalize dependent (n / 1024)%N. generalize dependent (n mod 1024)%N.
    intros. lia. }
  assert (F1 : s1 = (54 * 1024 + n / 1024)%N).
  { subst s1. rewrite E1. change 55296%N with (54 * 1024)%N.
    apply lor_high_bits. exact Hq. }
  assert (F2 : s2 = (55 * 1024 + n mod 1024)%N).
  { subst s2. rewrite E2. change 56320%N with (55 * 1024)%N.
    apply lor_high_bits. assumption. }
  rewrite F1, F2.
  assert (Hc : c = (n + 65536)%N) by (subst n; lia).
  generalize dependent (n / 1024)%N. generalize dependent (n mod 1024)%N.
  intros. lia.
Qed.

Lemma ascii_of_N_neq (c k : N) :
  (c < 256)%N -> (k < 256)%N -> c <> k -> ascii_of_N c <> ascii_of_N k.
Proof.
  intros Hc Hk Hne E. apply Hne.
  rewrite <- (N_ascii_embedding c), <- (N_ascii_embedding k) by assumption.
  rewrite E. reflexivity.
Qed.

(** Reading undoes the escape of one character. *)
Lemma scanstring_escape_ascii (c : codepoint) (rest : string) :
  no_high_surrogate c = true ->
  scanstring (escape_ascii c ++ rest) = option_map (cons c) (scanstring rest).
Proof.
  intros Hc. unfold escape_ascii.
  destruct (N.eqb_spec c 92) as [->|H92]; [reflexivity|].
  destruct (N.eqb_spec c 34) as [->|H34]; [reflexivity|].
  destruct (N.eqb_spec c 8) as [->|H8]; [reflexivity|].
  destruct (N.eqb_spec c 12) as [->|H12]; [reflexivity|].
  destruct (N.eqb_spec c 10) as [->|H10]; [reflexivity|].
  destruct (N.eqb_spec c 13) as [->|H13]; [reflexivity|].
  destruct (N.eqb_spec c 9) as [->|H9]; [reflexivity|].
  unfold no_high_surrogate in Hc.
  destruct (N.ltb_spec c 32) as [H32|H32].
  { rewrite append_assoc.
    destruct (unhex4_hex4 c rest) as [h3 [h2 [h1 [h0 [-> Hh]]]]]; [lia|].
    apply scanstring_u; [exact Hh|].
    apply andb_false_iff. left. apply N.leb_gt. lia. }
  destruct (N.leb_spec c 126) as [H126|H126].
  { change (String (ascii_of_N c) "" ++ rest) with (String (ascii_of_N c) rest).
    rewrite scanstring_plain.
    - rewrite N_ascii_embedding by lia. reflexivity.
    - change dquote with (ascii_of_N 34). apply ascii_of_N_neq; lia.
    - change "\"%char with (ascii_of_N 92). apply ascii_of_N_neq; lia. }
  destruct (N.ltb_spec c 65536) as [H16|H16].
  { rewrite append_assoc.
    destruct (unhex4_hex4 c rest) as [h3 [h2 [h1 [h0 [-> Hh]]]]]; [lia|].
    apply scanstring_u; [exact Hh|].
    destruct (N.ltb_spec c 55296) as [Hlow|Hlow].
    - apply andb_false_iff. left. apply N.leb_gt. exact Hlow.
    - cbn [orb] in Hc. apply andb_true_iff in Hc. destruct Hc as [Hc _].
      apply N.leb_le in Hc.
      apply andb_false_iff. right. apply N.ltb_ge. exact Hc. }
  assert (Hmax : (c < 1114112)%N).
  { destruct (N.ltb_spec c 55296) as [Hlow|Hlow]; [lia|].
    cbn [orb] in Hc. apply andb_true_iff in Hc. destruct Hc as [_ Hc].
    apply N.ltb_lt in Hc. exact Hc. }
  cbv zeta.
  destruct (surrogates_value c (conj H16 Hmax)) as [[Ha Hb] [[Hc1 Hc2] Hv]].
  cbv zeta in Ha, Hb, Hc1, Hc2, Hv.
  set (s1 := N.lor 55296 (N.land (N.shiftr (c - 65536) 10) 1023)) in *.
  set (s2 := N.lor 56320 (N.land (c - 65536) 1023)) in *.
  rewrite !append_assoc.
  destruct (unhex4_hex4 s2 rest) as [l3 [l2 [l1 [l0 [-> Hl]]]]]; [lia|].
  change ("\u" ++ String l3 (String l2 (String l1 (String l0 rest))))
    with (String "\" (String "u" (String l3 (String l2 (String l1 (String l0 rest)))))).
  destruct (unhex4_hex4 s1
              (String "\" (String "u" (String l3 (String l2 (String l1 (String l0 rest)))))))
    as [h3 [h2 [h1 [h0 [-> Hh]]]]]; [lia|].
  change ("\u" ++ ?x) with (String "\" (String "u" x)).
  rewrite (scanstring_pair _ _ _ _ _ _ _ _ s1 s2 rest Hh).
  - rewrite Hv. reflexivity.
  - apply andb_true_iff. split; [apply N.leb_le|apply N.ltb_lt]; lia.
  - exact Hl.
  - apply andb_true_iff. split; [apply N.leb_le|apply N.ltb_lt]; lia.
Qed.

(** Reading the text [encode_basestring_ascii] writes for a str, after the
    opening quote, gives the str back, whatever follows the closing
    quote. *)
Lemma scanstring_escape_all (s : pystr) (rest : string) :
  forallb no_high_surrogate s = true ->
  scanstring (escape_all s ++ String dquote rest) = Some s.
Proof.
  induction s as [|c s IH]; cbn [escape_all forallb]; intros H.
  - reflexivity.
  - apply andb_true_iff in H. destruct H as [Hc Hs].
    rewrite append_assoc, scanstring_escape_ascii by exact Hc.
    rewrite (IH Hs). reflexivity.
Qed.

Lemma basestring_tail (s : pystr) (rest : string) :
  encode_basestring_ascii s ++ rest
  = String dquote (escape_all s ++ String dquote rest).
Proof.
  unfold encode_basestring_ascii, quoted.
  change (String dquote ?x ++ rest) with (String dquote (x ++ rest)).
  rewrite append_assoc. reflexivity.
Qed.

(** Two surrogates in a row are written like the character outside the
    basic plane they would encode: a str with a high surrogate cannot
    always be told from another by its text. *)
Example surrogate_pair_text :
  encode_basestring_ascii [55357; 56832]%N = encode_basestring_ascii [128512]%N.
Proof. reflexivity. Qed.

(** X10.  The text written for a str tells the str: two strs free of high
    surrogates (every command-line argument is) that are written the same
    are the same str.  In particular the text of a record of the batch
    script determines the title of the record, and the text of an envelope
    determines its message. *)
Theorem title_text_determines_title (s t : pystr) :
  forallb no_high_surrogate s = true ->
  forallb no_high_surrogate t = true ->
  (encode_basestring_ascii s = encode_basestring_ascii t -> s = t) /\
  (forall parsed error parsed' error',
      record_text s parsed error = record_text t parsed' error' -> s = t) /\
  (envelope s = envelope t -> s = t).
Proof.
  intros Hs Ht.
  assert (Hkey :
    forall rest rest',
      encode_basestring_ascii s ++ rest = encode_basestring_ascii t ++ rest' -> s = t).
  { intros rest rest' E. rewrite !basestring_tail in E.
    injection E as E. apply (f_equal scanstring) in E.
    rewrite !scanstring_escape_all in E by assumption.
    congruence. }
  split; [|split].
  - intros E. apply (Hkey "" ""). rewrite E. reflexivity.
  - intros parsed error parsed' error' E. unfold record_text in E.
    assert (Hcancel :
      forall x y,
        "{" ++ encode_basestring_ascii (lit "title") ++ ": " ++ x
        = "{" ++ encode_basestring_ascii (lit "title") ++ ": " ++ y -> x = y).
    { intros x y H. cbv in H. congruence. }
    apply Hcancel in E. exact (Hkey _ _ E).
  - intros E. unfold envelope in E.
    assert (Hcancel :
      forall x y,
        "{" ++ encode_basestring_ascii (lit "error") ++ ": " ++ x
        = "{" ++ encode_basestring_ascii (lit "error") ++ ": " ++ y -> x = y).
    { intros x y H. cbv in H. congruence. }
    apply Hcancel in E. exact (Hkey _ _ E).
Qed.

Lemma title_text_determines_title_witness :
  forallb no_high_surrogate (lit "The.Matrix.1999.1080p") = true /\
  forallb no_high_surrogate [233; 56448; 128512]%N = true /\
  (encode_basestring_ascii (lit "The.Matrix.1999.1080p")
   = encode_basestring_ascii [233; 56448; 128512]%N ->
   lit "The.Matrix.1999.1080p" = [233; 56448; 128512]%N).
Proof.
  assert (H1 : forallb no_high_surrogate (lit "The.Matrix.1999.1080p") = true)
    by reflexivity.
  assert (H2 : forallb no_high_surrogate [233; 56448; 128512]%N = true) by reflexivity.
  split; [exact H1|]. split; [exact H2|].
  exact (proj1 (title_text_determines_title _ _ H1 H2)).
Defined.

(** ** Plain titles *)

Lemma escape_ascii_plain (a : ascii) :
  plain a = true -> escape_ascii (N_of_ascii a) = String a "".
Proof.
  unfold plain, printable. intros H.
  apply andb_true_iff in H. destruct H as [H Hb].
  apply andb_true_iff in H. destruct H as [H Hq].
  apply andb_true_iff in H. destruct H as [Hlo Hhi].
  apply N.leb_le in Hlo. apply N.leb_le in Hhi.
  apply negb_true_iff, Ascii.eqb_neq in Hb.
  apply negb_true_iff, Ascii.eqb_neq in Hq.
  assert (H92 : N_of_ascii a <> 92%N).
  { intros E. apply Hb. rewrite <- (ascii_N_embedding a), E. reflexivity. }
  assert (H34 : N_of_ascii a <> 34%N).
  { intros E. apply Hq. rewrite <- (ascii_N_embedding a), E. reflexivity. }
  unfold escape_ascii.
  destruct (N.eqb_spec (N_of_ascii a) 92); [contradiction|].
  destruct (N.eqb_spec (N_of_ascii a) 34); [contradiction|].
  destruct (N.eqb_spec (N_of_ascii a) 8); [lia|].
  destruct (N.eqb_spec (N_of_ascii a) 12); [lia|].
  destruct (N.eqb_spec (N_of_ascii a) 10); [lia|].
  destruct (N.eqb_spec (N_of_ascii a) 13); [lia|].
  destruct (N.eqb_spec (N_of_ascii a) 9); [lia|].
  destruct (N.ltb_spec (N_of_ascii a) 32); [lia|].
  destruct (N.leb_spec (N_of_ascii a) 126); [|lia].
  rewrite ascii_N_embedding. reflexivity.
Qed.

Lemma escape_all_plain (s : string) :
  all_plain s = true -> escape_all (lit s) = s.
Proof.
  induction s as [|a s IH]; cbn [all_plain]; intros H.
  - reflexivity.
  - apply andb_true_iff in H. destruct H as [Ha Hs].
    change (lit (String a s)) with (N_of_ascii a :: lit s).
    cbn [escape_all]. rewrite (escape_ascii_plain a Ha), (IH Hs). reflexivity.
Qed.

(** X11.  A title made of characters from space to tilde with no double
    quote and no backslash, as release names are, is written as it is: its
    JSON text is the title between two double quotes, in the record of the
    batch script as in an envelope. *)
Theorem plain_title_written_verbatim (s : string) :
  all_plain s = true ->
  encode_basestring_ascii (lit s) = quoted s /\
  (forall parsed error,
      record_text (lit s) parsed error
      = "{" ++ quoted "title" ++ ": " ++ quoted s ++ ", " ++ quoted "parsed" ++ ": "
            ++ parsed ++ ", " ++ quoted "error" ++ ": " ++ error ++ "}") /\
  envelope (lit s) = "{" ++ quoted "error" ++ ": " ++ quoted s ++ "}".
Proof.
  intros H.
  assert (E : encode_basestring_ascii (lit s) = quoted s).
  { unfold encode_basestring_ascii. rewrite (escape_all_plain s H). reflexivity. }
  split; [exact E|]. split.
  - intros parsed error. unfold record_text. rewrite E. reflexivity.
  - unfold envelope. rewrite E. reflexivity.
Qed.

Lemma plain_title_written_verbatim_witness :
  all_plain "The.Matrix.1999.1080p" = true /\
  encode_basestring_ascii (lit "The.Matrix.1999.1080p") = quoted "The.Matrix.1999.1080p".
Proof.
  assert (H : all_plain "The.Matrix.1999.1080p" = true) by reflexivity.
  split; [exact H|].
  exact (proj1 (plain_title_written_verbatim "The.Matrix.1999.1080p" H)).
Defined.
(** ** The array the batch script writes *)

Lemma title_member_reads_back (title : pystr) (parsed error : string) :
  exists rest,
    record_text title parsed error = "{" ++ quoted "title" ++ ": " ++ String dquote rest /\
    (forallb no_high_surrogate title = true -> scanstring rest = Some title).
Proof.
  exists (escape_all title
            ++ String dquote
                 (", " ++ encode_basestring_ascii (lit "parsed") ++ ": " ++ parsed
                       ++ ", " ++ encode_basestring_ascii (lit "error") ++ ": " ++ error
                       ++ "}")).
  split.
  - unfold record_text. rewrite (basestring_tail title). reflexivity.
  - intros H. apply scanstring_escape_all. exact H.
Qed.

(** The texts of the records, when the encoder returns them. *)
Lemma batch_chunks (py : interpreter) (titles : list pystr) (rs : list (result pydict))
    (cs : list string) :
  List.length rs = List.length titles ->
  each (iterencode py default_str (nesting py)) (batch_items titles rs) = Ok cs ->
  List.length cs = List.length titles /\
  forall i title r,
    nth_error titles i = Some title -> nth_error rs i = Some r ->
    exists room,
      nesting py = S room /\
      match r with
      | Ok entries =>
          exists s, iterencode py default_str room (PDict entries) = Ok s /\
                    nth_error cs i = Some (record_text title s "null")
      | Err e =>
          nth_error cs i
          = Some (record_text title "null" (encode_basestring_ascii (exc_str e)))
      end.
Proof.
  intros Hlen Ecs. split.
  - rewrite (each_length _ _ _ Ecs). apply batch_items_length. exact Hlen.
  - intros i title r Ht Hr.
    pose proof (batch_items_nth titles rs i title r Ht Hr) as Hitem.
    destruct (each_nth _ _ _ _ _ Ecs Hitem) as [c [Hc Henc]].
    destruct (batch_room py title r c Henc) as [room Hroom].
    exists room. split; [exact Hroom|].
    rewrite Hroom, iterencode_batch_item in Henc.
    destruct r as [entries|e].
    + destruct (iterencode py default_str room (PDict entries)) as [s|]; [|discriminate].
      exists s. split; [reflexivity|congruence].
    + congruence.
Qed.



(** ** The two scripts side by side *)





(** ** The default argument *)

(** X9.  Passing [default=str] changes nothing for a parser result made
    only of what [json] encodes by itself (None, bools, numbers, strs,
    lists, tuples, dicts): the script writes for it the text that
    [json.dumps] without [default] gives.  The fallback only shows for the
    other values. *)
Theorem default_str_keeps_native_results {PS : Type}
    (parse_title : pystr -> PS -> result pydict * PS) (argv : list pystr)
    (title : pystr) (entries : pydict) (py : interpreter) (s0 : PS) :
  nth_error argv 1 = Some title ->
  fst (parse_title title s0) = Ok entries ->
  native (PDict entries) = true ->
  dumps py (PDict entries) default_str = dumps py (PDict entries) default_none /\
  forall s, dumps py (PDict entries) default_none = Ok s ->
            out (run (ParseTitle.main PS parse_title argv) py s0) = line s.
Proof.
  intros Ht Hv Hn.
  assert (E : dumps py (PDict entries) default_str = dumps py (PDict entries) default_none).
  { unfold dumps. symmetry. apply iterencode_native. exact Hn. }
  split; [exact E|].
  intros s Hs.
  rewrite (single_run_title parse_title py argv title s0 Ht), Hv, E, Hs.
  reflexivity.
Qed.

Lemma default_str_keeps_native_results_witness :
  nth_error one_title 1 = Some (lit "The.Matrix.1999.1080p") /\
  native (PDict [(KStr (lit "title"), PStr (lit "The Matrix"));
                 (KStr (lit "year"), PInt 1999);
                 (KStr (lit "resolution"), PStr (lit "1080p"))]) = true /\
  dumps cpython
    (PDict [(KStr (lit "title"), PStr (lit "The Matrix"));
            (KStr (lit "year"), PInt 1999);
            (KStr (lit "resolution"), PStr (lit "1080p"))]) default_str
  = dumps cpython
      (PDict [(KStr (lit "title"), PStr (lit "The Matrix"));
              (KStr (lit "year"), PInt 1999);
              (KStr (lit "resolution"), PStr (lit "1080p"))]) default_none.
Proof.
  assert (H : nth_error one_title 1 = Some (lit "The.Matrix.1999.1080p")) by reflexivity.
  split; [exact H|]. split; [reflexivity|].
  exact (proj1 (default_str_keeps_native_results matrix_parser one_title _ _ cpython tt
                  H eq_refl eq_refl)).
Defined.

(** X13.  An object [json] cannot represent by itself is written as the
    JSON string of [str] of it.  Whenever a script ends with status 0,
    what it wrote to standard output for the results of the parser is the
    JSON text, encoded with no fallback at all, of the same value in which
    every such object has been replaced by its string form; that value
    holds nothing but what [json] encodes by itself. *)
Theorem unknown_values_written_as_str {PS : Type}
    (parse_title : pystr -> PS -> result pydict * PS) (argv : list pystr)
    (py : interpreter) (s0 : PS) :
  2 <= List.length argv ->
  let single := run (ParseTitle.main PS parse_title argv) py s0 in
  let batch := run (ParseTitleBatch.main PS parse_title argv) py s0 in
  (forall cls id,
      dumps py (PObj cls id) default_str = dumps py (PStr (str py cls id)) default_none) /\
  (forall o, native (stringify py o) = true) /\
  (forall title entries,
      nth_error argv 1 = Some title ->
      fst (parse_title title s0) = Ok entries ->
      exit_status single = 0%Z ->
      exists text,
        dumps py (stringify py (PDict entries)) default_none = Ok text /\
        out single = line text) /\
  (exit_status batch = 0%Z ->
   exists results w text,
     ParseTitleBatch.for_title_in PS parse_title (skipn 1 argv) [] (mkWorld "" "" [] s0)
       = (Normal results, w) /\
     dumps py (stringify py (PList results)) default_none = Ok text /\
     out batch = line text).
Proof.
  intros Hlen single batch. subst single batch.
  split; [reflexivity|].
  split; [apply native_stringify|].
  split.
  - intros title entries Ht Hv.
    rewrite (single_run_title parse_title py argv title s0 Ht), Hv.
    destruct (dumps py (PDict entries) default_str) as [text|e] eqn:Ed;
      cbn [exit_status out]; [intros _|discriminate].
    exists text. split; [|reflexivity].
    apply (iterencode_stringify py (PDict entries) _ _ Ed).
  - pose proof (batch_run_titles parse_title py argv s0 Hlen) as Hrun.
    cbv zeta in Hrun. rewrite Hrun. clear Hrun.
    destruct (dumps py (PList (batch_items (skipn 1 argv)
                                 (replies parse_title (skipn 1 argv) s0))) default_str)
      as [text|e] eqn:Ed; cbn [exit_status out]; [intros _|discriminate].
    eexists. eexists. exists text. split.
    { rewrite for_title_in_run. cbn [app ptt]. reflexivity. }
    split; [|reflexivity].
    apply (iterencode_stringify py _ _ _ Ed).
Qed.

Lemma unknown_values_written_as_str_witness :
  2 <= List.length one_title /\
  exit_status (run (ParseTitle.main nat demo_parser one_title) cpython 0) = 0%Z /\
  out (run (ParseTitle.main nat demo_parser one_title) cpython 0)
    = line ("{" ++ quoted "title" ++ ": " ++ quoted "The.Matrix.1999.1080p" ++ ", "
              ++ quoted "released" ++ ": " ++ quoted "1999-03-31" ++ "}").
Proof.
  assert (H : 2 <= List.length one_title) by (simpl; lia).
  assert (H0 : exit_status (run (ParseTitle.main nat demo_parser one_title) cpython 0) = 0%Z)
    by reflexivity.
  split; [exact H|]. split; [exact H0|].
  destruct (unknown_values_written_as_str demo_parser one_title cpython 0 H)
    as [_ [_ [Hsingle _]]].
  destruct (Hsingle _ _ eq_refl eq_refl H0) as [text [Htext Hout]].
  rewrite Hout. f_equal.
  vm_compute in Htext. injection Htext as <-. reflexivity.
Defined.
